(** * save-hidden-npy: capturing one activation tensor per pass as a .npy file

    A shallow embedding of [examples/save-hidden-npy-callback/save-hidden-npy.cpp]
    and the properties of its type mapper, its array encoder, its evaluation
    callback and its record loop.

    Conventions of the embedding:
    - [std::string] is [string]; file contents and raw buffers are [list byte];
    - [size_t] lengths are [nat] (no arithmetic of the program comes near
      2^64); [int64_t] extents are [Z]; the [uint32_t] record id is [N];
      the [uint16_t] header-length field is a [Z] reduced modulo 2^16;
    - a C++ exception is the [Throw] outcome of a state-and-exception monad;
      the state reached when the exception was thrown is kept;
    - the file system is a finite map from path to contents. *)

From Stdlib.Strings Require Import Ascii String Byte.
From stdpp Require Import base numbers list strings pretty gmap.

Local Open Scope string_scope.
Local Open Scope list_scope.

(** ** Characters that cannot be written inside a string literal *)

Definition dquote : string := String (Ascii.ascii_of_nat 34) EmptyString.
Definition newline : string := String (Ascii.ascii_of_nat 10) EmptyString.

(** ** Exceptions and the state monad *)

(** [std::runtime_error(what)], the only exception type the program throws. *)
Inductive exn : Type :=
| runtime_error (what : string).

Inductive outcome (A : Type) : Type :=
| Ret (a : A)
| Throw (e : exn).
Arguments Ret {A} a.
Arguments Throw {A} e.

Definition M (S A : Type) : Type := S → outcome A * S.

Definition throw {S A} (e : exn) : M S A := λ s, (Throw e, s).
Definition gets {S A} (f : S → A) : M S A := λ s, (Ret (f s), s).
Definition modify {S} (f : S → S) : M S unit := λ s, (Ret tt, f s).

#[global] Instance M_ret {S} : MRet (M S) := λ A a s, (Ret a, s).
#[global] Instance M_bind {S} : MBind (M S) := λ A B k m s,
  match m s with
  | (Ret a, s') => k a s'
  | (Throw e, s') => (Throw e, s')
  end.

(** A pure computation that may throw, run inside the monad. *)
Definition lift_outcome {S A} (o : outcome A) : M S A := λ s, (o, s).

(** ** Engine types used by the program *)

(** Modelled from the spec: [enum ggml_type] is declared in ggml.h, which is
    not among the sources.  The eleven enumerators the source names are kept;
    every other element-type tag of the engine is [GGML_TYPE_other tag]. *)
Inductive ggml_type : Type :=
| GGML_TYPE_F32
| GGML_TYPE_F16
| GGML_TYPE_Q4_0
| GGML_TYPE_Q4_1
| GGML_TYPE_Q5_0
| GGML_TYPE_Q5_1
| GGML_TYPE_Q8_0
| GGML_TYPE_I8
| GGML_TYPE_I16
| GGML_TYPE_I32
| GGML_TYPE_I64
| GGML_TYPE_other (tag : N).

#[global] Instance ggml_type_eq_dec : EqDecision ggml_type.
Proof. solve_decision. Defined.

(** ** The type descriptor mapper *)

Definition ggml_type_to_numpy_descr (type : ggml_type) : outcome string :=
  match type with
  | GGML_TYPE_F32 => Ret "<f4"
  | GGML_TYPE_F16 => Ret "<f2"
  | GGML_TYPE_Q4_0 => Ret "<i1"
  | GGML_TYPE_Q4_1 => Ret "<i1"
  | GGML_TYPE_Q5_0 => Ret "<i1"
  | GGML_TYPE_Q5_1 => Ret "<i1"
  | GGML_TYPE_Q8_0 => Ret "<i1"
  | GGML_TYPE_I8 => Ret "<i1"
  | GGML_TYPE_I16 => Ret "<i2"
  | GGML_TYPE_I32 => Ret "<i4"
  | GGML_TYPE_I64 => Ret "<i8"
  | _ => Throw (runtime_error "Unsupported ggml type")
  end.

(** The fixed table of the specification, to compare the mapper with. *)
Definition numpy_descr_table : list (ggml_type * string) :=
  [ (GGML_TYPE_F32, "<f4"); (GGML_TYPE_F16, "<f2");
    (GGML_TYPE_Q4_0, "<i1"); (GGML_TYPE_Q4_1, "<i1");
    (GGML_TYPE_Q5_0, "<i1"); (GGML_TYPE_Q5_1, "<i1");
    (GGML_TYPE_Q8_0, "<i1"); (GGML_TYPE_I8, "<i1");
    (GGML_TYPE_I16, "<i2"); (GGML_TYPE_I32, "<i4");
    (GGML_TYPE_I64, "<i8") ].

Fixpoint table_lookup (type : ggml_type) (tbl : list (ggml_type * string))
  : option string :=
  match tbl with
  | [] => None
  | (ty, d) :: tbl' => if decide (ty = type) then Some d else table_lookup type tbl'
  end.

(** ** The array encoder: header text *)

(** The loop [for (i = 0; i < shape.size(); ++i) { if (i) hdr << ", "; hdr << shape[i]; }]
    started at index [i] on the remaining entries, [hdr] being the text
    accumulated in the stream so far. *)
Fixpoint shape_loop (i : nat) (shape : list Z) (hdr : string) : string :=
  match shape with
  | [] => hdr
  | x :: rest =>
      let hdr := if decide (i = 0) then hdr else hdr +:+ ", " in
      shape_loop (S i) rest (hdr +:+ pretty x)
  end.

(** The header as [hdr.str()] returns it, given the descriptor. *)
Definition header_text (descr : string) (shape : list Z) : string :=
  let hdr := EmptyString in
  let hdr := hdr +:+ "{" in
  let hdr := hdr +:+ dquote +:+ "descr" +:+ dquote +:+ ": " +:+ dquote
                 +:+ descr +:+ dquote +:+ ", " in
  let hdr := hdr +:+ dquote +:+ "fortran_order" +:+ dquote +:+ ": False, " in
  let hdr := hdr +:+ dquote +:+ "shape" +:+ dquote +:+ ": (" in
  let hdr := shape_loop 0 shape hdr in
  let hdr := if decide (length shape = 1) then hdr +:+ "," else hdr in
  hdr +:+ ")}".

(** [header.append(pad, ' ')] with the program's [pad]. *)
Definition magic_len : nat := 6.
Definition version_len : nat := 2.
Definition header_len_field : nat := 2.

Definition spaces (n : nat) : string :=
  String.string_of_list_ascii (replicate n " "%char).

Definition header_pad (header : string) : nat :=
  let total_len := magic_len + version_len + header_len_field + String.length header in
  (64 - total_len `mod` 64) `mod` 64.

Definition padded_header (header : string) : string :=
  header +:+ spaces (header_pad header).

(** ** Program state seen by the encoder and the callback *)

(** [struct callback_data]. *)
Record callback_data : Type := mk_callback_data {
  data : list byte;
  uid : N;
  target_layer : string;
  output_dir : string;
}.

(** Effects on the outside world that leave no other mark in the state:
    a device-to-host read, an attempt to open a file for writing, and a
    call of the engine's decode entry point. *)
Inductive op : Type :=
| OpTensorGet (tensor_name : string) (offset size : nat)
| OpOpen (path : string) (ok : bool)
| OpDecode (tokens : list Z).

(** The callback's world: the [callback_data] object that [user_data] points
    to, the files on disk, which paths can be opened for writing, and the
    trace of effects so far (oldest first). *)
Record hstate : Type := mk_hstate {
  cb_data : callback_data;
  files : gmap string (list byte);
  writable : string → bool;
  ops : list op;
}.

Definition set_cb_data (c : callback_data) (s : hstate) : hstate :=
  mk_hstate c (files s) (writable s) (ops s).
Definition set_files (f : gmap string (list byte)) (s : hstate) : hstate :=
  mk_hstate (cb_data s) f (writable s) (ops s).
Definition add_op (o : op) (s : hstate) : hstate :=
  mk_hstate (cb_data s) (files s) (writable s) (ops s ++ [o]).

(** ** Output file streams *)

(** [std::ofstream out(path, std::ios::binary)] followed by [!out]: opening
    creates or truncates the file; the result tells whether the stream is
    good.  Writes to a stream that was opened are taken to succeed.  A file
    is identified by the path string it is opened with: two spellings of one
    location are two entries of the map. *)
Definition ofstream_open (path : string) : M hstate bool := λ s,
  if writable s path
  then (Ret true, add_op (OpOpen path true) (set_files (<[path := []]> (files s)) s))
  else (Ret false, add_op (OpOpen path false) s).

(** [out.write(buf, n)]: the bytes are appended to the file. *)
Definition ofstream_write (path : string) (bytes : list byte) : M hstate unit :=
  modify (λ s, set_files (<[path := default [] (files s !! path) ++ bytes]> (files s)) s).

(** [out.put(c)]. *)
Definition ofstream_put (path : string) (c : byte) : M hstate unit :=
  ofstream_write path [c].

(** ** The array encoder *)

(** [static_cast<uint16_t>(n)] of a [size_t]. *)
Definition to_uint16 (n : nat) : Z := Z.of_nat n `mod` 2 ^ 16.

(** [static_cast<char>(z)]: the low eight bits as one byte. *)
Definition to_char (z : Z) : byte :=
  default x00 (Byte.of_N (Z.to_N (z `mod` 256))).

(** The literal ["\x93NUMPY"]. *)
Definition magic : list byte := x93 :: list_byte_of_string "NUMPY".

Definition save_data_npy (data : list byte) (n_bytes : nat) (shape : list Z)
    (type : ggml_type) (path : string) : M hstate unit :=
  descr ← lift_outcome (ggml_type_to_numpy_descr type);
  let header := header_text descr shape in
  let header := padded_header header in
  out ← ofstream_open path;
  if negb out then
    throw (runtime_error ("Cannot open file: " +:+ path))
  else
    ofstream_write path (take 6 magic);;
    ofstream_put path x01;;
    ofstream_put path x00;;
    let hdr_len := to_uint16 (String.length header) in
    ofstream_put path (to_char (Z.land hdr_len 255));;
    ofstream_put path (to_char (Z.land (Z.shiftr hdr_len 8) 255));;
    ofstream_write path (take (String.length header) (list_byte_of_string header));;
    ofstream_write path (take n_bytes data).

(** ** Tensors as the callback sees them *)

(** Modelled from the spec: [struct ggml_tensor] and the buffer it lives in
    are declared in ggml.h and ggml-backend.h, which are not among the
    sources.  A tensor has a name, an element type, its per-dimension sizes
    [ne[i]], its raw byte count (what [ggml_nbytes] returns) and a buffer that
    is host-resident or not; [t_data] is the content of the tensor's storage,
    wherever it lives. *)
Record ggml_backend_buffer : Type := mk_buffer {
  is_host : bool;
}.

Record ggml_tensor : Type := mk_tensor {
  t_type : ggml_type;
  t_buffer : ggml_backend_buffer;
  t_ne : nat → Z;
  t_nbytes : nat;
  t_data : list byte;
  t_name : string;
}.

Definition ggml_nbytes (t : ggml_tensor) : nat := t_nbytes t.
Definition ggml_backend_buffer_is_host (b : ggml_backend_buffer) : bool := is_host b.

(** [v.resize(n)] on a [std::vector<uint8_t>]: truncates, or grows with
    zero bytes. *)
Definition vector_resize (n : nat) (v : list byte) : list byte :=
  take n v ++ replicate (n - length v) x00.

(** Modelled from the spec: [ggml_backend_tensor_get(t, dst, offset, size)] is
    the engine's synchronous read of [size] bytes of the tensor's storage,
    from [offset] on, into the host buffer [dst]; the bytes of [dst] after
    them are left as they were.  The read fills the buffer it is given and
    never changes its length: [dst] has to be sized by the caller. *)
Definition tensor_get_bytes (t : ggml_tensor) (dst : list byte) (offset size : nat)
  : list byte :=
  let src := take size (drop offset (t_data t)) in
  take (length dst) (src ++ drop (length src) dst).

Definition ggml_backend_tensor_get (t : ggml_tensor) (offset size : nat)
  : M hstate unit :=
  modify (λ s,
    let c := cb_data s in
    add_op (OpTensorGet (t_name t) offset size)
      (set_cb_data (mk_callback_data (tensor_get_bytes t (data c) offset size)
                      (uid c) (target_layer c) (output_dir c)) s)).

Definition resize_data (n : nat) : M hstate unit :=
  modify (λ s,
    let c := cb_data s in
    set_cb_data (mk_callback_data (vector_resize n (data c))
                   (uid c) (target_layer c) (output_dir c)) s).

(** ** The evaluation callback *)

Section Hook.

(** The engine's fixed maximum rank, a macro of ggml.h. *)
Variable GGML_MAX_DIMS : nat.

(** The loop [for (i = 0; i < GGML_MAX_DIMS; ++i) shape.push_back(t->ne[i]);]
    from index [i] on, with [n] iterations left. *)
Fixpoint push_dims (t : ggml_tensor) (i n : nat) (shape : list Z) : list Z :=
  match n with
  | 0 => shape
  | S n' => push_dims t (S i) n' (shape ++ [t_ne t i])
  end.

Definition build_shape (t : ggml_tensor) : list Z :=
  let shape := push_dims t 0 GGML_MAX_DIMS [] in
  if decide (shape = []) then shape ++ [1%Z] else shape.

Definition out_path_of (c : callback_data) : string :=
  output_dir c +:+ "/" +:+ pretty (uid c) +:+ ".npy".

Definition ggml_debug (t : ggml_tensor) (ask : bool) : M hstate bool :=
  if ask then mret true
  else
    target ← gets (λ s, target_layer (cb_data s));
    (if decide (t_name t = target) then
       let n_bytes := ggml_nbytes t in
       let is_host := ggml_backend_buffer_is_host (t_buffer t) in
       data_ptr ←
         (if negb is_host then
            resize_data n_bytes;;
            ggml_backend_tensor_get t 0 n_bytes;;
            gets (λ s, data (cb_data s))
          else mret (t_data t));
       let shape := build_shape t in
       out_path ← gets (λ s, out_path_of (cb_data s));
       save_data_npy data_ptr n_bytes shape (t_type t) out_path
     else mret tt);;
    mret true.

End Hook.

(** ** The record loop *)

(** [struct json_entry]. *)
Record json_entry : Type := mk_json_entry {
  e_uid : N;
  e_question_text : string;
  e_answer_text : string;
  e_model_answer : string;
  e_target : string;
}.

(** The constants at the head of [main], [home] being the value of the
    environment variable HOME. *)
Definition TARGET_LAYER : string := "l_out-15".
Definition OUTPUT_DIR (home : string) : string := home +:+ "/310-solution/npy_outputs/".

(** The [callback_data] object [main] creates. *)
Definition initial_cb_data (home : string) : callback_data :=
  mk_callback_data [] 0%N TARGET_LAYER (OUTPUT_DIR home).

Section Driver.

Variable GGML_MAX_DIMS : nat.

(** Modelled from the spec: the inference engine (llama.h, common.h) is not
    among the sources.  [llama_context] is its state;
    [llama_vocab_get_add_bos] and [common_tokenize] are its tokenizer;
    [eval_plan ctx tokens] is what one decode call on [tokens] does from
    context [ctx]: the tensors it evaluates, in order, the status it
    returns (0 for success) and the context it leaves. *)
Variable llama_context : Type.
Variable llama_vocab_get_add_bos : llama_context → bool.
Variable common_tokenize : llama_context → string → bool → list Z.
Variable eval_plan : llama_context → list Z → list ggml_tensor * Z * llama_context.

(** The driver's world: the engine context, the error log, and the
    callback's world. *)
Record dstate : Type := mk_dstate {
  ctx : llama_context;
  log : list string;
  hs : hstate;
}.

(** Modelled from the spec: the engine invokes the hook for every tensor of
    the pass in two phases, first asking, then (when the hook asked for the
    tensor) acting; a hook that returns false in the act phase ends the
    pass, and an exception thrown by the hook leaves the engine's
    evaluation call. *)
Fixpoint eval_tensors (cb_eval : ggml_tensor → bool → M hstate bool)
    (ts : list ggml_tensor) : M hstate unit :=
  match ts with
  | [] => mret tt
  | t :: ts' =>
      need ← cb_eval t true;
      if (need : bool) then
        go_on ← cb_eval t false;
        if (go_on : bool) then eval_tensors cb_eval ts' else mret tt
      else eval_tensors cb_eval ts'
  end.

Definition llama_decode (cb_eval : ggml_tensor → bool → M hstate bool)
    (tokens : list Z) : M dstate Z := λ d,
  let '(ts, status, ctx') := eval_plan (ctx d) tokens in
  match eval_tensors cb_eval ts (add_op (OpDecode tokens) (hs d)) with
  | (Ret _, h') => (Ret status, mk_dstate ctx' (log d) h')
  | (Throw e, h') => (Throw e, mk_dstate ctx' (log d) h')
  end.

(** [LOG_ERR(...)]. *)
Definition LOG_ERR (msg : string) : M dstate unit :=
  modify (λ d, mk_dstate (ctx d) (log d ++ [msg]) (hs d)).

Definition run_one (prompt : string) : M dstate bool :=
  add_bos ← gets (λ d, llama_vocab_get_add_bos (ctx d));
  tokens ← gets (λ d, common_tokenize (ctx d) prompt add_bos);
  if decide (tokens = []) then mret false
  else
    r ← llama_decode (ggml_debug GGML_MAX_DIMS) tokens;
    if decide (r ≠ 0%Z) then
      LOG_ERR ("run_one : failed to eval" +:+ newline);;
      mret false
    else mret true.

(** [cb_data.uid = e.uid]. *)
Definition set_uid (u : N) : M dstate unit :=
  modify (λ d,
    let c := cb_data (hs d) in
    mk_dstate (ctx d) (log d)
      (set_cb_data (mk_callback_data (data c) u (target_layer c) (output_dir c)) (hs d))).

(** One iteration of [for (const auto & e : entries)]. *)
Definition loop_body (e : json_entry) : M dstate unit :=
  set_uid (e_uid e);;
  ok ← run_one (e_question_text e);
  if negb ok then
    LOG_ERR ("Inference failed for uid " +:+ pretty (e_uid e) +:+ newline)
  else mret tt.

Fixpoint main_loop (entries : list json_entry) : M dstate unit :=
  match entries with
  | [] => mret tt
  | e :: rest => loop_body e;; main_loop rest
  end.

End Driver.

Arguments ctx {llama_context} d.
Arguments log {llama_context} d.
Arguments hs {llama_context} d.
Arguments mk_dstate {llama_context} ctx log hs.

(** ** The header as the specification words it *)

(** The text after the first item of a separated list. *)
Fixpoint sep_tail (sep : string) (items : list string) : string :=
  match items with
  | [] => EmptyString
  | x :: rest => sep +:+ x +:+ sep_tail sep rest
  end.

(** [items] joined by [sep]. *)
Definition join (sep : string) (items : list string) : string :=
  match items with
  | [] => EmptyString
  | x :: rest => x +:+ sep_tail sep rest
  end.

(** A dictionary literal: the [key: value] items in the given order. *)
Definition dict_text (items : list (string * string)) : string :=
  "{" +:+ join ", " ((λ kv, dquote +:+ kv.1 +:+ dquote +:+ ": " +:+ kv.2) <$> items) +:+ "}".

(** The shape tuple: parenthesized, comma-space-separated, with the
    single-element trailing comma. *)
Definition shape_tuple (shape : list Z) : string :=
  "(" +:+ join ", " (pretty <$> shape)
      +:+ (if decide (length shape = 1) then "," else EmptyString) +:+ ")".

Definition header_dict (descr : string) (shape : list Z) : string :=
  dict_text [ ("descr", dquote +:+ descr +:+ dquote);
              ("fortran_order", "False");
              ("shape", shape_tuple shape) ].

Definition ends_with (suffix s : string) : Prop := ∃ p, s = p +:+ suffix.

(** The bytes [save_data_npy] leaves in the file it opened, given the
    descriptor of the element type and the payload it copied. *)
Definition npy_file (descr : string) (shape : list Z) (payload : list byte) : list byte :=
  let header := padded_header (header_text descr shape) in
  let hdr_len := to_uint16 (String.length header) in
  magic ++ [x01; x00]
        ++ [to_char (Z.land hdr_len 255); to_char (Z.land (Z.shiftr hdr_len 8) 255)]
        ++ list_byte_of_string header ++ payload.

(** ** Auxiliary notions for the statements about the callback *)

(** The world after the callback staged a device-resident tensor:
    [cb_data->data.resize(n_bytes)] and then the read of the tensor into it. *)
Definition after_fetch (t : ggml_tensor) (s : hstate) : hstate :=
  (ggml_backend_tensor_get t 0 (ggml_nbytes t) (resize_data (ggml_nbytes t) s).2).2.

(** Whether an effect is a device read. *)
Definition is_tensor_get (o : op) : bool :=
  match o with OpTensorGet _ _ _ => true | _ => false end.

(** ** Concrete inputs for the examples *)

(** A world with no files, where every path can be opened. *)
Definition demo_world : hstate :=
  mk_hstate (mk_callback_data [] 7 "l_out-15" "out") ∅ (λ _, true) [].

(** A tensor of four floats' worth of bytes named like the target layer. *)
Definition demo_tensor (host : bool) (name : string) : ggml_tensor :=
  mk_tensor GGML_TYPE_F32 (mk_buffer host) (λ i, nth i [2; 3; 1; 1]%Z 1%Z) 4
    [x0a; x0b; x0c; x0d; x0e] name.

(** ** What one callback invocation may change *)

(** The effects a capture to [path] may have: device reads and attempts to
    open [path]; never a decode call. *)
Definition capture_op (path : string) (o : op) : Prop :=
  match o with
  | OpTensorGet _ _ _ => True
  | OpOpen p _ => p = path
  | OpDecode _ => False
  end.

(** [s'] differs from [s] by captures only: the record id, the target layer
    and the output directory are the same, as is the set of writable paths;
    the trace grew by capture effects; no file but the current record's
    changed. *)
Definition capture_frame (s s' : hstate) : Prop :=
  uid (cb_data s') = uid (cb_data s) ∧
  target_layer (cb_data s') = target_layer (cb_data s) ∧
  output_dir (cb_data s') = output_dir (cb_data s) ∧
  writable s' = writable s ∧
  (∃ new, ops s' = ops s ++ new ∧ Forall (capture_op (out_path_of (cb_data s))) new) ∧
  (∀ p, p ≠ out_path_of (cb_data s) → files s' !! p = files s !! p).

(** Number of decode calls in a trace. *)
Definition is_decode (o : op) : bool :=
  match o with OpDecode _ => true | _ => false end.

Definition count_decodes (l : list op) : nat :=
  length (filter (λ o, is_decode o) l).

(** The state after [cb_data.uid = u]. *)
Definition with_uid {LC : Type} (u : N) (d : dstate LC) : dstate LC :=
  (set_uid LC u d).2.

(** A toy engine: the context counts the decode calls; an empty prompt has
    no tokens; the prompt "bad" makes the decode fail; every pass evaluates
    three tensors, the second being the target layer on a device. *)
Definition demo_add_bos (c : nat) : bool := false.
Definition demo_tokenize (c : nat) (prompt : string) (add_bos : bool) : list Z :=
  if decide (prompt = EmptyString) then []
  else if decide (prompt = "bad") then [7%Z]
  else [1%Z; 2%Z].
Definition demo_plan (c : nat) (tokens : list Z) : list ggml_tensor * Z * nat :=
  ([demo_tensor true "inp_embd"; demo_tensor false "l_out-15"; demo_tensor true "result"],
   if decide (tokens = [7%Z]) then 1%Z else 0%Z,
   S c).

Definition demo_dstate (w : string → bool) : dstate nat :=
  mk_dstate 0 [] (mk_hstate (initial_cb_data "/home/u") ∅ w []).

Definition demo_entry (u : N) (question : string) : json_entry :=
  mk_json_entry u question EmptyString EmptyString EmptyString.

Definition demo_main_loop (entries : list json_entry) (d : dstate nat)
  : outcome unit * dstate nat :=
  main_loop 4 nat demo_add_bos demo_tokenize demo_plan entries d.

(** The output path of the record with id [u] under directory [dir]. *)
Definition record_path (dir : string) (u : N) : string :=
  dir +:+ "/" +:+ pretty u +:+ ".npy".

(** The two errors a capture can end with, for the file [path]. *)
Definition capture_error (path : string) (ex : exn) : Prop :=
  ex = runtime_error "Unsupported ggml type" ∨
  ex = runtime_error ("Cannot open file: " +:+ path).

(** What a whole run of the loop keeps: target layer, output directory and
    the set of writable paths. *)
Definition session_kept (s s' : hstate) : Prop :=
  target_layer (cb_data s') = target_layer (cb_data s) ∧
  output_dir (cb_data s') = output_dir (cb_data s) ∧
  writable s' = writable s.

(** ** Loading the records *)

Section Load.

(** Modelled from the spec: the JSON library (nlohmann/json.hpp) is not among
    the sources.  [json] is a parsed value and [json_exception] what the
    library's operations throw; [json_parse] is [in >> j] on the bytes of the
    file, [json_elements j] the values a range-for over [j] visits, in order,
    [json_at obj key] is [obj.at(key)], and [get_uint32] and [get_string] are
    [get<uint32_t>()] and [get<std::string>()]. *)
Variable json : Type.
Variable json_exception : Type.
Variable json_parse : list byte → json_exception + json.
Variable json_elements : json → list json.
Variable json_at : json → string → json_exception + json.
Variable get_uint32 : json → json_exception + N.
Variable get_string : json → json_exception + string.

(** What [load_input_json] can throw: its own [std::runtime_error], or an
    exception of the JSON library. *)
Inductive load_exn : Type :=
| LoadRuntimeError (what : string)
| LoadJsonException (e : json_exception).

(** [obj.at(key).get<T>()]. *)
Definition json_field {A : Type} (obj : json) (key : string)
    (get : json → json_exception + A) : json_exception + A :=
  match json_at obj key with
  | inl x => inl x
  | inr v => get v
  end.

(** The body of the loop over the parsed array: the five fields are read in
    the order of the source, and the first failure is thrown. *)
Definition entry_of_json (obj : json) : json_exception + json_entry :=
  match json_field obj "uid" get_uint32 with
  | inl x => inl x
  | inr uid =>
  match json_field obj "question_text" get_string with
  | inl x => inl x
  | inr question_text =>
  match json_field obj "answer_text" get_string with
  | inl x => inl x
  | inr answer_text =>
  match json_field obj "model_answer" get_string with
  | inl x => inl x
  | inr model_answer =>
  match json_field obj "target" get_string with
  | inl x => inl x
  | inr target =>
      inr (mk_json_entry uid question_text answer_text model_answer target)
  end end end end end.

(** [for (const auto & obj : j) { ...; entries.push_back(std::move(e)); }]
    on the elements still to visit, [entries] being the vector so far. *)
Fixpoint load_entries (objs : list json) (entries : list json_entry)
  : json_exception + list json_entry :=
  match objs with
  | [] => inr entries
  | obj :: rest =>
      match entry_of_json obj with
      | inl x => inl x
      | inr e => load_entries rest (entries ++ [e])
      end
  end.

(** [load_input_json(path)] on the file system [fs]; the input stream is good
    exactly when the file exists. *)
Definition load_input_json (fs : gmap string (list byte)) (path : string)
  : load_exn + list json_entry :=
  match fs !! path with
  | None => inl (LoadRuntimeError ("Cannot open INPUT_JSON: " +:+ path))
  | Some content =>
      match json_parse content with
      | inl x => inl (LoadJsonException x)
      | inr j =>
          match load_entries (json_elements j) [] with
          | inl x => inl (LoadJsonException x)
          | inr entries => inr entries
          end
      end
  end.

End Load.

Arguments LoadRuntimeError {json_exception} what.
Arguments LoadJsonException {json_exception} e.

(** ** The program *)

(** The third constant at the head of [main]. *)
Definition INPUT_JSON (home : string) : string :=
  home +:+ "/310-solution/datasets/splits/train.json".

Section Main.

Variable GGML_MAX_DIMS : nat.
Variable llama_context : Type.
Variable llama_vocab_get_add_bos : llama_context → bool.
Variable common_tokenize : llama_context → string → bool → list Z.
Variable eval_plan : llama_context → list Z → list ggml_tensor * Z * llama_context.
Variable json : Type.
Variable json_exception : Type.
Variable json_parse : list byte → json_exception + json.
Variable json_elements : json → list json.
Variable json_at : json → string → json_exception + json.
Variable get_uint32 : json → json_exception + N.
Variable get_string : json → json_exception + string.

(** How [main] ends: it returns an exit code, or an exception nobody catches
    leaves it: the failure of [std::filesystem::create_directories], an
    exception of [load_input_json], or one thrown by a capture. *)
Inductive main_end : Type :=
| Exit (code : Z)
| UncaughtFilesystemError (path : string)
| UncaughtLoad (e : load_exn json_exception)
| UncaughtCapture (e : exn).

(** What [main] leaves behind: the directories it created, the log, and the
    callback's world. *)
Record main_state : Type := mk_main_state {
  created_dirs : list string;
  main_log : list string;
  main_world : hstate;
}.

(** [main], from the value [home] of the environment variable HOME and the
    world [w] it starts in.  The collaborators outside the sources are its
    parameters: [create_directories_ok] tells whether creating the output
    directory succeeds (it throws otherwise), [params_ok] is the result of
    [common_params_parse], and [init] is the context [common_init_from_params]
    yields ([None] when the model or the context is null).  The remaining
    engine calls ([common_init], [llama_backend_init], [llama_numa_init],
    [llama_perf_context_print], [llama_backend_free]) and the final
    line break written with [LOG] touch nothing of the state. *)
Definition main (home : string) (create_directories_ok : bool) (params_ok : bool)
    (init : option llama_context) (w : hstate) : main_end * main_state :=
  if negb create_directories_ok then
    (UncaughtFilesystemError (OUTPUT_DIR home), mk_main_state [] [] w)
  else
    let dirs := [OUTPUT_DIR home] in
    let h := set_cb_data (initial_cb_data home) w in
    if negb params_ok then (Exit 1, mk_main_state dirs [] h)
    else
      match init with
      | None => (Exit 1, mk_main_state dirs ["main : failed to init" +:+ newline] h)
      | Some ctx =>
          match load_input_json json json_exception json_parse json_elements
                  json_at get_uint32 get_string (files h) (INPUT_JSON home) with
          | inl e => (UncaughtLoad e, mk_main_state dirs [] h)
          | inr entries =>
              match main_loop GGML_MAX_DIMS llama_context llama_vocab_get_add_bos
                      common_tokenize eval_plan entries (mk_dstate ctx [] h) with
              | (Ret _, d) => (Exit 0, mk_main_state dirs (log d) (hs d))
              | (Throw e, d) => (UncaughtCapture e, mk_main_state dirs (log d) (hs d))
              end
          end
      end.

End Main.

Arguments Exit {json_exception} code.
Arguments UncaughtFilesystemError {json_exception} path.
Arguments UncaughtLoad {json_exception} e.
Arguments UncaughtCapture {json_exception} e.

(** ** A toy JSON library for the examples *)

Inductive demo_json : Type :=
| DNum (n : N)
| DStr (s : string)
| DObj (fields : list (string * (N + string)))
| DArr (items : list (list (string * (N + string)))).

Definition demo_elements (j : demo_json) : list demo_json :=
  match j with DArr items => DObj <$> items | _ => [] end.

Fixpoint demo_assoc (key : string) (fields : list (string * (N + string)))
  : string + demo_json :=
  match fields with
  | [] => inl ("key not found: " +:+ key)
  | (k, v) :: rest =>
      if decide (k = key)
      then inr (match v with inl n => DNum n | inr s => DStr s end)
      else demo_assoc key rest
  end.

Definition demo_at (j : demo_json) (key : string) : string + demo_json :=
  match j with DObj fields => demo_assoc key fields | _ => inl "not an object" end.

Definition demo_get_uint32 (j : demo_json) : string + N :=
  match j with DNum n => inr n | _ => inl "not a number" end.

Definition demo_get_string (j : demo_json) : string + string :=
  match j with DStr s => inr s | _ => inl "not a string" end.

Definition demo_record (u : N) (question : string) : list (string * (N + string)) :=
  [("uid", inl u); ("question_text", inr question);
   ("answer_text", inr "a"); ("model_answer", inr "m"); ("target", inr "t")].

(** A file starting with byte 1 holds two complete records, the second with
    an empty question; any other non-empty file holds a record, an element
    without uid, and a further record; the empty file does not parse. *)
Definition demo_parse (content : list byte) : string + demo_json :=
  match content with
  | [] => inl "parse error"
  | b :: _ =>
      if Byte.eqb b x01
      then inr (DArr [demo_record 1 "hello"; demo_record 2 EmptyString])
      else inr (DArr [demo_record 1 "hello"; [("question_text", inr "q")];
                      demo_record 3 "later"])
  end.

Definition demo_load (fs : gmap string (list byte)) (path : string)
  : load_exn string + list json_entry :=
  load_input_json demo_json string demo_parse demo_elements demo_at
    demo_get_uint32 demo_get_string fs path.

(** The world [main] starts in: the input file with the given content and
    nothing else, every path writable. *)
Definition demo_main_world (content : list byte) : hstate :=
  mk_hstate (initial_cb_data "/home/u") {[INPUT_JSON "/home/u" := content]}
    (λ _, true) [].

Definition demo_main (content : list byte) (params_ok : bool) (init : option nat)
  : main_end string * main_state :=
  main 4 nat demo_add_bos demo_tokenize demo_plan demo_json string demo_parse
    demo_elements demo_at demo_get_uint32 demo_get_string
    "/home/u" true params_ok init (demo_main_world content).

(** ** Auxiliary notions for reading a header back *)

(** The characters a printed integer is made of. *)
Definition is_num_char (c : ascii) : bool :=
  bool_decide (c ∈ list_ascii_of_string "0123456789-").

(** What follows the first integer of a shape in the header: the further
    entries, the trailing comma when [one] holds, and the closing
    parenthesis and brace. *)
Definition shape_rest (l : list Z) (one : bool) : string :=
  sep_tail ", " (pretty <$> l) +:+ (if one then "," else EmptyString) +:+ ")}".

(** The fixed text of the header before the descriptor, and between the
    descriptor and the first integer of the shape. *)
Definition header_open : string :=
  "{" +:+ dquote +:+ "descr" +:+ dquote +:+ ": " +:+ dquote.
Definition header_mid : string :=
  dquote +:+ ", " +:+ dquote +:+ "fortran_order" +:+ dquote +:+ ": False, "
         +:+ dquote +:+ "shape" +:+ dquote +:+ ": (".

(** The header from the first integer of the shape on. *)
Definition shape_body (shape : list Z) : string :=
  match shape with
  | [] => ")}"
  | x :: l => pretty x +:+ shape_rest l (bool_decide (l = []))
  end.

(** * Properties *)

(** ** Strings as character lists *)

Lemma str_app_cons c s t : String c s +:+ t = String c (s +:+ t).
Proof. reflexivity. Qed.

Lemma str_app_nil_l s : EmptyString +:+ s = s.
Proof. reflexivity. Qed.

Lemma str_app_nil_r s : s +:+ EmptyString = s.
Proof. induction s as [|c s IH]; [done|]. by rewrite str_app_cons, IH. Qed.

Lemma str_app_assoc s t u : (s +:+ t) +:+ u = s +:+ (t +:+ u).
Proof. induction s as [|c s IH]; [done|]. by rewrite !str_app_cons, IH. Qed.

Lemma str_length_app s t : String.length (s +:+ t) = String.length s + String.length t.
Proof. induction s as [|c s IH]; [done|]. rewrite str_app_cons. simpl. by rewrite IH. Qed.

Lemma chars_app s t :
  list_ascii_of_string (s +:+ t) = list_ascii_of_string s ++ list_ascii_of_string t.
Proof. induction s as [|c s IH]; [done|]. rewrite str_app_cons. simpl. by rewrite IH. Qed.

Lemma rchars_app s t :
  reverse (list_ascii_of_string (s +:+ t))
    = reverse (list_ascii_of_string t) ++ reverse (list_ascii_of_string s).
Proof. by rewrite chars_app, reverse_app. Qed.

Lemma chars_inj s t : list_ascii_of_string s = list_ascii_of_string t → s = t.
Proof.
  intros H. rewrite <-(string_of_list_ascii_of_string s), H.
  apply string_of_list_ascii_of_string.
Qed.

Lemma bytes_app s t :
  list_byte_of_string (s +:+ t) = list_byte_of_string s ++ list_byte_of_string t.
Proof. unfold list_byte_of_string. by rewrite chars_app, map_app. Qed.

Lemma bytes_length s : length (list_byte_of_string s) = String.length s.
Proof.
  unfold list_byte_of_string. rewrite length_map.
  induction s as [|c s IH]; [done|]. simpl. by rewrite IH.
Qed.

Lemma spaces_length n : String.length (spaces n) = n.
Proof. induction n as [|n IH]; [done|]. unfold spaces in *. simpl. by rewrite IH. Qed.

(** ** The type descriptor mapper *)

(** C2: the mapper is a function of the element type alone; it returns the
    descriptor of the fixed table for each of the eleven supported types and
    throws the unsupported-type error, returning no descriptor, for every
    other tag. *)
Theorem ggml_type_to_numpy_descr_table :
  ggml_type_to_numpy_descr GGML_TYPE_F32 = Ret "<f4" ∧
  ggml_type_to_numpy_descr GGML_TYPE_F16 = Ret "<f2" ∧
  ggml_type_to_numpy_descr GGML_TYPE_Q4_0 = Ret "<i1" ∧
  ggml_type_to_numpy_descr GGML_TYPE_Q4_1 = Ret "<i1" ∧
  ggml_type_to_numpy_descr GGML_TYPE_Q5_0 = Ret "<i1" ∧
  ggml_type_to_numpy_descr GGML_TYPE_Q5_1 = Ret "<i1" ∧
  ggml_type_to_numpy_descr GGML_TYPE_Q8_0 = Ret "<i1" ∧
  ggml_type_to_numpy_descr GGML_TYPE_I8 = Ret "<i1" ∧
  ggml_type_to_numpy_descr GGML_TYPE_I16 = Ret "<i2" ∧
  ggml_type_to_numpy_descr GGML_TYPE_I32 = Ret "<i4" ∧
  ggml_type_to_numpy_descr GGML_TYPE_I64 = Ret "<i8" ∧
  (∀ type : ggml_type,
     ggml_type_to_numpy_descr type =
       match table_lookup type numpy_descr_table with
       | Some d => Ret d
       | None => Throw (runtime_error "Unsupported ggml type")
       end) ∧
  (∀ tag : N,
     table_lookup (GGML_TYPE_other tag) numpy_descr_table = None ∧
     ggml_type_to_numpy_descr (GGML_TYPE_other tag)
       = Throw (runtime_error "Unsupported ggml type")).
Proof.
  repeat split; try reflexivity.
  intros type. by destruct type.
Qed.

(** ** The header text *)

Lemma pretty_N_go_app x s : pretty_N_go x s = pretty_N_go x EmptyString +:+ s.
Proof.
  revert s. induction (N.lt_wf_0 x) as [x _ IH]; intros s.
  destruct (decide (x = 0)%N) as [->|Hx]; [by rewrite !pretty_N_go_0|].
  assert (x `div` 10 < x)%N as Hlt by (apply N.div_lt; lia).
  rewrite !(pretty_N_go_step x) by lia.
  rewrite (IH _ Hlt (String _ s)), (IH _ Hlt (String _ EmptyString)).
  by rewrite str_app_assoc.
Qed.

Lemma pretty_N_last (x : N) :
  ∃ p d, pretty x = p +:+ String (pretty_N_char d) EmptyString.
Proof.
  unfold pretty, pretty_N. case_decide as Hx.
  - by exists EmptyString, 0%N.
  - rewrite pretty_N_go_step by lia. rewrite pretty_N_go_app. eauto.
Qed.

Lemma pretty_Z_last (x : Z) :
  ∃ p d, pretty x = p +:+ String (pretty_N_char d) EmptyString.
Proof.
  destruct x as [|q|q]; unfold pretty, pretty_Z.
  - by exists EmptyString, 0%N.
  - apply pretty_N_last.
  - destruct (pretty_N_last (N.pos q)) as (p & d & Hp).
    exists ("-" +:+ p), d. unfold pretty at 1, pretty_positive. by rewrite Hp.
Qed.

Lemma pretty_N_char_not_comma d : pretty_N_char d ≠ ","%char.
Proof. unfold pretty_N_char. by repeat case_match. Qed.

Lemma shape_loop_succ i shape hdr :
  shape_loop (S i) shape hdr = hdr +:+ sep_tail ", " (pretty <$> shape).
Proof.
  revert i hdr. induction shape as [|x rest IH]; intros i hdr; simpl.
  - by rewrite str_app_nil_r.
  - rewrite IH. by rewrite !str_app_assoc.
Qed.

Lemma shape_loop_join shape hdr :
  shape_loop 0 shape hdr = hdr +:+ join ", " (pretty <$> shape).
Proof.
  destruct shape as [|x rest]; simpl.
  - by rewrite str_app_nil_r.
  - rewrite shape_loop_succ. by rewrite !str_app_assoc.
Qed.

Lemma join_last (items : list Z) :
  items ≠ [] → ∃ p d, join ", " (pretty <$> items)
                        = p +:+ String (pretty_N_char d) EmptyString.
Proof.
  intros Hne. destruct items as [|x rest]; [done|]. clear Hne. simpl.
  revert x. induction rest as [|y rest IH]; intros x; simpl.
  - rewrite str_app_nil_r. apply pretty_Z_last.
  - destruct (IH y) as (p & d & Hp).
    exists (pretty x +:+ ", " +:+ p), d. rewrite Hp. by rewrite !str_app_assoc.
Qed.

Lemma header_text_eq descr shape : header_text descr shape = header_dict descr shape.
Proof.
  unfold header_text, header_dict, dict_text, shape_tuple.
  rewrite shape_loop_join. simpl.
  case_decide; rewrite ?str_app_assoc, ?str_app_nil_l; simpl;
    rewrite ?str_app_assoc; reflexivity.
Qed.

Lemma header_text_trailing_comma descr shape :
  ends_with ",)}" (header_text descr shape) ↔ length shape = 1.
Proof.
  rewrite header_text_eq. unfold header_dict, dict_text, shape_tuple. simpl.
  set (pre := dquote +:+ "descr" +:+ _).
  split.
  - intros [p Hp]. destruct (decide (length shape = 1)) as [|Hlen]; [done|exfalso].
    apply (f_equal (λ s, reverse (list_ascii_of_string s))) in Hp.
    cbv beta in Hp. 
    rewrite !rchars_app, <-!app_assoc in Hp.
    destruct (decide (shape = [])) as [->|Hne].
    + simpl in Hp. discriminate Hp.
    + destruct (join_last shape Hne) as (q & d & Hq). rewrite Hq in Hp.
      rewrite (rchars_app q) in Hp. simpl in Hp.
      apply (f_equal (λ l, l !! 2)) in Hp. simpl in Hp.
      injection Hp as Hd. by apply pretty_N_char_not_comma in Hd.
  - intros Hlen. rewrite decide_True by done.
    destruct shape as [|x [|??]]; simplify_eq/=.
    exists ("{" +:+ pre +:+ ", " +:+ dquote +:+ "fortran_order" +:+ dquote
                +:+ ": False, " +:+ dquote +:+ "shape" +:+ dquote +:+ ": (" +:+ pretty x).
    clearbody pre. apply chars_inj. rewrite !chars_app, <-!app_assoc. reflexivity.
Qed.

(** C3: the unpadded header is the dictionary with the three keys descr,
    fortran_order and shape in this order, fortran_order being False and the
    shape a parenthesized comma-space-separated list; the text ends in a comma
    before the closing parenthesis exactly when the shape has one dimension. *)
Theorem header_text_dict (descr : string) (shape : list Z) :
  header_text descr shape
    = dict_text [ ("descr", dquote +:+ descr +:+ dquote);
                  ("fortran_order", "False");
                  ("shape", "(" +:+ join ", " (pretty <$> shape)
                               +:+ (if decide (length shape = 1) then "," else EmptyString)
                               +:+ ")") ] ∧
  (ends_with ",)}" (header_text descr shape) ↔ length shape = 1).
Proof. split; [apply header_text_eq|apply header_text_trailing_comma]. Qed.



Example header_text_2_3 :
  header_text "<f4" [2; 3]%Z
    = "{" +:+ dquote +:+ "descr" +:+ dquote +:+ ": " +:+ dquote +:+ "<f4" +:+ dquote
          +:+ ", " +:+ dquote +:+ "fortran_order" +:+ dquote +:+ ": False, "
          +:+ dquote +:+ "shape" +:+ dquote +:+ ": (2, 3)}".
Proof. vm_compute. reflexivity. Qed.

Example header_text_5 :
  header_text "<i1" [5]%Z
    = "{" +:+ dquote +:+ "descr" +:+ dquote +:+ ": " +:+ dquote +:+ "<i1" +:+ dquote
          +:+ ", " +:+ dquote +:+ "fortran_order" +:+ dquote +:+ ": False, "
          +:+ dquote +:+ "shape" +:+ dquote +:+ ": (5,)}".
Proof. vm_compute. reflexivity. Qed.

Example padded_header_2_3_1_1 :
  String.length (header_text "<f4" [2; 3; 1; 1]%Z) = 63 ∧
  header_pad (header_text "<f4" [2; 3; 1; 1]%Z) = 55 ∧
  String.length (padded_header (header_text "<f4" [2; 3; 1; 1]%Z)) = 118.
Proof. vm_compute. done. Qed.

(** ** The array encoder *)

Lemma save_data_npy_run buf n_bytes shape type path (s : hstate) :
  save_data_npy buf n_bytes shape type path s =
    match ggml_type_to_numpy_descr type with
    | Throw e => (Throw e, s)
    | Ret descr =>
        if writable s path then
          (Ret tt, add_op (OpOpen path true)
                     (set_files (<[path := npy_file descr shape (take n_bytes buf)]> (files s)) s))
        else
          (Throw (runtime_error ("Cannot open file: " +:+ path)),
           add_op (OpOpen path false) s)
    end.
Proof.
  unfold save_data_npy, mbind, M_bind, lift_outcome.
  destruct (ggml_type_to_numpy_descr type) as [descr|e]; [|done].
  unfold ofstream_open. destruct (writable s path) eqn:Hw; [|done].
  cbn [negb]. unfold ofstream_put, ofstream_write, modify, add_op, set_files. cbn [files cb_data writable ops].
  rewrite !lookup_insert_eq, !insert_insert_eq. cbn [default]. 
  do 2 f_equal. f_equal. unfold npy_file, id.
  rewrite (take_ge (list_byte_of_string _)) by (rewrite bytes_length; lia).
  change (take 6 magic) with magic. rewrite <-!app_assoc. reflexivity.
Qed.


Lemma to_char_value z : Z.of_N (Byte.to_N (to_char z)) = (z `mod` 256)%Z.
Proof.
  unfold to_char.
  destruct (Byte.of_N (Z.to_N (z `mod` 256))) as [b|] eqn:Hb.
  - apply Byte.to_of_N in Hb. simpl. rewrite Hb.
    pose proof (Z.mod_pos_bound z 256). lia.
  - apply Byte.of_N_None_iff in Hb.
    pose proof (Z.mod_pos_bound z 256). lia.
Qed.

Lemma uint16_le_value (n : nat) :
  let h := to_uint16 n in
  (Z.of_N (Byte.to_N (to_char (Z.land h 255)))
     + 256 * Z.of_N (Byte.to_N (to_char (Z.land (Z.shiftr h 8) 255))))%Z
  = (Z.of_nat n `mod` 65536)%Z.
Proof.
  intros h. rewrite !to_char_value.
  change 255%Z with (Z.ones 8). rewrite !Z.land_ones by lia.
  rewrite Z.shiftr_div_pow2 by lia.
  assert (0 ≤ h < 65536)%Z as Hh by (apply Z.mod_pos_bound; lia).
  change (Z.of_nat n `mod` 65536)%Z with h.
  change (2 ^ 8)%Z with 256%Z.
  rewrite (Z.mod_small (h `mod` 256) 256) by (apply Z.mod_pos_bound; lia).
  rewrite (Z.mod_small ((h `div` 256) `mod` 256) 256) by (apply Z.mod_pos_bound; lia).
  rewrite (Z.mod_small (h `div` 256) 256).
  - pose proof (Z.div_mod h 256). lia.
  - split; [apply Z.div_pos; lia|]. apply Z.div_lt_upper_bound; lia.
Qed.

Lemma padded_header_aligned header :
  (10 + String.length (padded_header header)) `mod` 64 = 0.
Proof.
  unfold padded_header, header_pad, magic_len, version_len, header_len_field.
  rewrite str_length_app, spaces_length.
  change (6 + 2 + 2 + String.length header) with (10 + String.length header).
  set (n := String.length header).
  pose proof (Nat.div_mod_eq (10 + n) 64) as Hdm.
  pose proof (Nat.mod_upper_bound (10 + n) 64 ltac:(lia)) as Hlt.
  set (m := (10 + n) `mod` 64) in *.
  destruct (decide (m = 0)) as [Hm|Hm].
  - rewrite Hm. change ((64 - 0) `mod` 64) with 0. rewrite Nat.add_0_r. exact Hm.
  - rewrite (Nat.mod_small (64 - m)) by lia.
    replace (10 + (n + (64 - m))) with ((S ((10 + n) `div` 64)) * 64) by lia.
    apply Nat.Div0.mod_mul.
Qed.





(** ** The evaluation callback *)

Lemma vector_resize_length n v : length (vector_resize n v) = n.
Proof. unfold vector_resize. rewrite length_app, length_take, length_replicate. lia. Qed.

Lemma tensor_get_bytes_length t dst offset size :
  length (tensor_get_bytes t dst offset size) = length dst.
Proof.
  unfold tensor_get_bytes. cbv zeta.
  rewrite length_take, length_app, length_drop. lia.
Qed.

Lemma tensor_get_bytes_all t dst n :
  (n ≤ length (t_data t))%nat → length dst = n →
  tensor_get_bytes t dst 0 n = take n (t_data t).
Proof.
  intros Hn Hdst. unfold tensor_get_bytes. rewrite drop_0.
  rewrite length_take, Nat.min_l by done.
  rewrite drop_ge by lia. rewrite app_nil_r, Hdst.
  apply take_ge. rewrite length_take. lia.
Qed.

Lemma push_dims_spec t i n shape :
  push_dims t i n shape = shape ++ (t_ne t <$> seq i n).
Proof.
  revert i shape. induction n as [|n IH]; intros i shape; simpl.
  - by rewrite app_nil_r.
  - rewrite IH. by rewrite <-app_assoc.
Qed.

Lemma build_shape_spec D t :
  build_shape D t = if decide (D = 0) then [1%Z] else t_ne t <$> seq 0 D.
Proof.
  unfold build_shape. rewrite push_dims_spec. simpl.
  by destruct D as [|D].
Qed.

Lemma ggml_debug_match D t s :
  t_name t = target_layer (cb_data s) →
  ggml_debug D t false s =
    let s1 := if is_host (t_buffer t) then s else after_fetch t s in
    let payload := if is_host (t_buffer t) then t_data t else data (cb_data s1) in
    match save_data_npy payload (ggml_nbytes t) (build_shape D t) (t_type t)
            (out_path_of (cb_data s)) s1 with
    | (Ret _, s') => (Ret true, s')
    | (Throw e, s') => (Throw e, s')
    end.
Proof.
  intros Hname. unfold ggml_debug, mbind, M_bind, gets. cbn beta iota.
  rewrite decide_True by done.
  unfold ggml_backend_buffer_is_host. destruct (is_host (t_buffer t)); cbn.
  - by destruct (save_data_npy _ _ _ _ _ _) as [[[]|] ?].
  - by destruct (save_data_npy _ _ _ _ _ _) as [[[]|] ?].
Qed.

Lemma ggml_debug_skip D t s :
  t_name t ≠ target_layer (cb_data s) → ggml_debug D t false s = (Ret true, s).
Proof.
  intros Hname. unfold ggml_debug, mbind, M_bind, gets. cbn beta iota.
  by rewrite decide_False.
Qed.

(** C6: in the act phase, a tensor whose name is not the target layer makes
    the callback return true at once: no file is opened, nothing is read from
    the device, and the state, staging buffer included, is left as it was. *)
Theorem ggml_debug_other_name (D : nat) (t : ggml_tensor) (s : hstate) :
  t_name t ≠ target_layer (cb_data s) →
  ggml_debug D t false s = (Ret true, s).
Proof.
  intros Hname. unfold ggml_debug, mbind, M_bind, gets. cbn beta iota.
  by rewrite decide_False.
Qed.

Lemma ggml_debug_other_name_witness :
  ggml_debug 4 (demo_tensor false "l_out-14") false demo_world = (Ret true, demo_world).
Proof. apply ggml_debug_other_name. vm_compute. discriminate. Defined.

Lemma build_shape_ext D t th :
  (∀ i, (i < D)%nat → t_ne th i = t_ne t i) → build_shape D th = build_shape D t.
Proof.
  intros Hne. rewrite !build_shape_spec. case_decide; [done|].
  apply list_eq. intros i. rewrite !list_lookup_fmap.
  destruct (seq 0 D !! i) as [j|] eqn:Hj; [|done]. simpl.
  apply lookup_seq in Hj as [-> ?]. f_equal. apply Hne. lia.
Qed.

Lemma after_fetch_fields t s :
  files (after_fetch t s) = files s ∧
  writable (after_fetch t s) = writable s ∧
  ops (after_fetch t s) = ops s ++ [OpTensorGet (t_name t) 0 (ggml_nbytes t)] ∧
  uid (cb_data (after_fetch t s)) = uid (cb_data s) ∧
  target_layer (cb_data (after_fetch t s)) = target_layer (cb_data s) ∧
  output_dir (cb_data (after_fetch t s)) = output_dir (cb_data s) ∧
  length (data (cb_data (after_fetch t s))) = ggml_nbytes t.
Proof.
  split_and!; [done..|].
  change (length (tensor_get_bytes t (vector_resize (ggml_nbytes t) (data (cb_data s))) 0
                    (ggml_nbytes t)) = ggml_nbytes t).
  by rewrite tensor_get_bytes_length, vector_resize_length.
Qed.

Lemma after_fetch_staged t s :
  data (cb_data (after_fetch t s))
    = tensor_get_bytes t (vector_resize (ggml_nbytes t) (data (cb_data s))) 0
        (ggml_nbytes t).
Proof. reflexivity. Qed.

Lemma after_fetch_data t s :
  (ggml_nbytes t ≤ length (t_data t))%nat →
  data (cb_data (after_fetch t s)) = take (ggml_nbytes t) (t_data t).
Proof.
  intros Hn. unfold after_fetch, ggml_backend_tensor_get, resize_data, modify. cbn.
  apply tensor_get_bytes_all; [done|]. apply vector_resize_length.
Qed.

(** C5: for a matching tensor that is not host-resident the callback resizes
    the staging buffer to exactly the tensor's byte length, whatever its
    length was, and reads the tensor into it with exactly one device read;
    its outcome is that of the run on a host-resident tensor of the same
    name, type and extents, and when the tensor's storage holds the
    [ggml_nbytes] bytes and the two tensors have the same bytes, the staging
    buffer holds these bytes and the two runs leave the same files. *)
Theorem ggml_debug_device_as_host (D : nat) (t th : ggml_tensor)
    (s sd sh : hstate) (rd rh : outcome bool) :
  t_name t = target_layer (cb_data s) →
  is_host (t_buffer t) = false →
  t_name th = t_name t →
  is_host (t_buffer th) = true →
  t_type th = t_type t →
  (∀ i, (i < D)%nat → t_ne th i = t_ne t i) →
  ggml_nbytes th = ggml_nbytes t →
  ggml_debug D t false s = (rd, sd) →
  ggml_debug D th false s = (rh, sh) →
  length (data (cb_data sd)) = ggml_nbytes t ∧
  data (cb_data sd)
    = tensor_get_bytes t (vector_resize (ggml_nbytes t) (data (cb_data s))) 0
        (ggml_nbytes t) ∧
  data (cb_data sh) = data (cb_data s) ∧
  (∃ file_ops : list op,
     ops sd = ops s ++ OpTensorGet (t_name t) 0 (ggml_nbytes t) :: file_ops ∧
     ops sh = ops s ++ file_ops ∧
     Forall (λ o, is_tensor_get o = false) file_ops) ∧
  rd = rh ∧
  ((ggml_nbytes t ≤ length (t_data t))%nat →
   take (ggml_nbytes t) (t_data th) = take (ggml_nbytes t) (t_data t) →
   data (cb_data sd) = take (ggml_nbytes t) (t_data t) ∧
   files sd = files sh ∧
   (rd = Ret true →
    ∃ descr, ggml_type_to_numpy_descr (t_type t) = Ret descr ∧
      files sd !! out_path_of (cb_data s)
        = Some (npy_file descr (build_shape D t) (take (ggml_nbytes t) (t_data t))))).
Proof.
  intros Hname Hdev Hname' Hhost Hty Hne Hnb Hd Hh.
  rewrite ggml_debug_match in Hd by done.
  rewrite ggml_debug_match in Hh by congruence.
  rewrite Hdev in Hd. rewrite Hhost in Hh. cbv zeta in Hd, Hh.
  rewrite save_data_npy_run in Hd. rewrite save_data_npy_run in Hh.
  destruct (after_fetch_fields t s) as (Hf & Hw & Ho & Hu & Htl & Hod & Hn).
  pose proof (after_fetch_data t s) as Hdata.
  rewrite Hw in Hd.
  rewrite Hty, Hnb, (build_shape_ext D t th Hne) in Hh.
  destruct (ggml_type_to_numpy_descr (t_type t)) as [descr|e];
    [destruct (writable s (out_path_of (cb_data s)))|];
    simplify_eq/=; rewrite ?Hf, ?Ho.
  - split_and!; [done..| |done|].
    + exists [OpOpen (out_path_of (cb_data s)) true].
      rewrite <-app_assoc. split_and!; [done..|]. by repeat constructor.
    + intros Hlen Hbytes. rewrite Hdata by done. rewrite take_take, Nat.min_id, Hbytes.
      split_and!; [done..|]. intros _. exists descr. by rewrite lookup_insert_eq.
  - split_and!; [done..| |done|].
    + exists [OpOpen (out_path_of (cb_data s)) false].
      rewrite <-app_assoc. split_and!; [done..|]. by repeat constructor.
    + intros Hlen Hbytes. rewrite Hdata by done. by split_and!.
  - split_and!; [done..| |done|].
    + exists []. split_and!; [done|by rewrite app_nil_r|done].
    + intros Hlen Hbytes. rewrite Hdata by done. by split_and!.
Qed.

Lemma ggml_debug_device_as_host_witness :
  let run host := ggml_debug 4 (demo_tensor host "l_out-15") false demo_world in
  length (data (cb_data demo_world)) = 0 ∧
  length (data (cb_data (run false).2)) = 4 ∧
  data (cb_data (run false).2) = [x0a; x0b; x0c; x0d] ∧
  (run false).1 = (run true).1 ∧
  files (run false).2 = files (run true).2.
Proof.
  intros run.
  destruct (ggml_debug_device_as_host 4
              (demo_tensor false "l_out-15") (demo_tensor true "l_out-15")
              demo_world (run false).2 (run true).2 (run false).1 (run true).1)
    as (Hlen & _ & _ & _ & Hr & Hsame).
  - reflexivity.
  - reflexivity.
  - reflexivity.
  - reflexivity.
  - reflexivity.
  - intros i _. reflexivity.
  - reflexivity.
  - apply surjective_pairing.
  - apply surjective_pairing.
  - destruct Hsame as (Hdata & Hf & _); [simpl; lia|reflexivity|].
    split; [reflexivity|]. split; [exact Hlen|].
    split; [exact Hdata|split; [exact Hr|exact Hf]].
Defined.

Lemma ggml_debug_written D t s s' :
  t_name t = target_layer (cb_data s) →
  ggml_debug D t false s = (Ret true, s') →
  ∃ descr payload,
    ggml_type_to_numpy_descr (t_type t) = Ret descr ∧
    files s' !! out_path_of (cb_data s)
      = Some (npy_file descr (build_shape D t) payload).
Proof.
  intros Hname Hrun. rewrite ggml_debug_match in Hrun by done. cbv zeta in Hrun.
  rewrite save_data_npy_run in Hrun.
  destruct (ggml_type_to_numpy_descr (t_type t)) as [descr|e]; [|done].
  destruct (writable _ _); [|done]. simplify_eq/=.
  eexists descr, _. split; [done|]. by rewrite lookup_insert_eq.
Qed.

(** C7: for a matching tensor the shape the callback hands to the encoder has
    one entry per dimension index below the engine's maximum rank, each the
    tensor's extent in that dimension whatever its value (trailing extents of
    1 are kept); the shape (1) is used only when the maximum rank is zero. *)
Theorem ggml_debug_shape (D : nat) (t : ggml_tensor) (s s' : hstate) (r : outcome bool) :
  t_name t = target_layer (cb_data s) →
  ggml_debug D t false s = (r, s') →
  ∃ (payload : list byte) (s1 : hstate) (shape : list Z),
    save_data_npy payload (ggml_nbytes t) shape (t_type t) (out_path_of (cb_data s)) s1
      = (match r with Ret _ => Ret tt | Throw e => Throw e end, s') ∧
    shape = build_shape D t ∧
    (D = 0 → shape = [1%Z]) ∧
    (D ≠ 0 → shape = (t_ne t <$> seq 0 D) ∧ length shape = D ∧
             ∀ i, (i < D)%nat → shape !! i = Some (t_ne t i)).
Proof.
  intros Hname Hrun. rewrite ggml_debug_match in Hrun by done. cbv zeta in Hrun.
  eexists _, _, (build_shape D t). split; [|split; [done|]].
  - destruct (save_data_npy _ _ _ _ _ _) as [[[]|e] s2] eqn:Hs; simplify_eq/=; exact Hs.
  - rewrite build_shape_spec. split; intros HD.
    + by rewrite decide_True.
    + rewrite decide_False by done. split; [done|]. split.
      * by rewrite length_fmap, length_seq.
      * intros i Hi. rewrite list_lookup_fmap, lookup_seq_lt by done. done.
Qed.

Lemma ggml_debug_shape_witness :
  ∃ (payload : list byte) (s1 : hstate),
    save_data_npy payload 4 [2; 3; 1; 1]%Z GGML_TYPE_F32 "out/7.npy" s1
      = (Ret tt, (ggml_debug 4 (demo_tensor true "l_out-15") false demo_world).2).
Proof.
  destruct (ggml_debug_shape 4 (demo_tensor true "l_out-15") demo_world
              (ggml_debug 4 (demo_tensor true "l_out-15") false demo_world).2
              (Ret true))
    as (payload & s1 & shape & Hsave & _ & _ & Hfull).
  - reflexivity.
  - vm_compute. reflexivity.
  - destruct Hfull as [-> _]; [lia|]. exists payload, s1. exact Hsave.
Defined.

(** C9: with a maximum rank of at least two the shape built by the callback
    has exactly that many entries, the empty-shape fallback is never taken,
    and no file written through the callback has the single-dimension
    trailing comma in its header. *)
Theorem ggml_debug_never_single_dim (D : nat) (t : ggml_tensor) (s s' : hstate) :
  (2 ≤ D)%nat →
  length (build_shape D t) = D ∧
  push_dims t 0 D [] ≠ [] ∧
  build_shape D t = push_dims t 0 D [] ∧
  length (build_shape D t) ≠ 1%nat ∧
  (t_name t = target_layer (cb_data s) →
   ggml_debug D t false s = (Ret true, s') →
   ∃ descr payload,
     files s' !! out_path_of (cb_data s)
       = Some (npy_file descr (build_shape D t) payload) ∧
     ¬ ends_with ",)}" (header_text descr (build_shape D t))).
Proof.
  intros HD.
  assert (length (build_shape D t) = D) as Hlen.
  { rewrite build_shape_spec, decide_False by lia. by rewrite length_fmap, length_seq. }
  assert (push_dims t 0 D [] ≠ []) as Hne.
  { rewrite push_dims_spec. destruct D as [|D]; [lia|]. done. }
  split; [done|]. split; [done|]. split; [|split; [lia|]].
  - unfold build_shape. by rewrite decide_False.
  - intros Hname Hrun.
    destruct (ggml_debug_written D t s s' Hname Hrun) as (descr & payload & _ & Hf).
    exists descr, payload. split; [done|].
    intros Hends. apply header_text_trailing_comma in Hends. lia.
Qed.

Lemma ggml_debug_never_single_dim_witness :
  length (build_shape 4 (demo_tensor false "l_out-15")) = 4%nat ∧
  push_dims (demo_tensor false "l_out-15") 0 4 [] ≠ [] ∧
  ∃ descr payload,
    files (ggml_debug 4 (demo_tensor false "l_out-15") false demo_world).2 !! "out/7.npy"
      = Some (npy_file descr [2; 3; 1; 1]%Z payload) ∧
    ¬ ends_with ",)}" (header_text descr [2; 3; 1; 1]%Z).
Proof.
  destruct (ggml_debug_never_single_dim 4 (demo_tensor false "l_out-15") demo_world
              (ggml_debug 4 (demo_tensor false "l_out-15") false demo_world).2)
    as (Hlen & Hne & _ & _ & Hfile).
  - lia.
  - split; [exact Hlen|]. split; [exact Hne|].
    apply Hfile; [reflexivity|]. vm_compute. reflexivity.
Defined.


(** ** Invariants of the callback *)

Lemma capture_frame_refl s : capture_frame s s.
Proof.
  split_and!; [done..| |done]. exists []. by rewrite app_nil_r.
Qed.

Lemma capture_frame_trans s1 s2 s3 :
  capture_frame s1 s2 → capture_frame s2 s3 → capture_frame s1 s3.
Proof.
  intros (Hu1 & Ht1 & Ho1 & Hw1 & (n1 & Hn1 & Hf1) & Hfs1)
         (Hu2 & Ht2 & Ho2 & Hw2 & (n2 & Hn2 & Hf2) & Hfs2).
  assert (out_path_of (cb_data s2) = out_path_of (cb_data s1)) as Hp
    by (unfold out_path_of; congruence).
  rewrite Hp in *.
  split_and!; [congruence..| |].
  - exists (n1 ++ n2). rewrite Hn2, Hn1, <-app_assoc. split; [done|].
    by apply Forall_app.
  - intros p Hne. rewrite Hfs2, Hfs1 by done. done.
Qed.

Lemma ggml_debug_frame D t ask s r s' :
  ggml_debug D t ask s = (r, s') → capture_frame s s' ∧ r ≠ Ret false.
Proof.
  destruct ask.
  { intros [= <- <-]. split; [apply capture_frame_refl|done]. }
  destruct (decide (t_name t = target_layer (cb_data s))) as [Hname|Hname].
  2:{ rewrite ggml_debug_skip by done. intros [= <- <-].
      split; [apply capture_frame_refl|done]. }
  rewrite ggml_debug_match by done. cbv zeta. rewrite save_data_npy_run.
  set (s1 := if is_host (t_buffer t) then s else after_fetch t s).
  assert (capture_frame s s1) as Hs1.
  { subst s1. destruct (is_host (t_buffer t)); [apply capture_frame_refl|].
    destruct (after_fetch_fields t s) as (Hf & Hw & Ho & Hu & Htl & Hod & _).
    split_and!; [done..| |intros p _; by rewrite Hf].
    eexists. split; [exact Ho|]. by repeat constructor. }
  assert (out_path_of (cb_data s1) = out_path_of (cb_data s)) as Hp.
  { destruct Hs1 as (? & ? & ? & _). unfold out_path_of. congruence. }
  destruct (ggml_type_to_numpy_descr (t_type t)) as [descr|e].
  - destruct (writable s1 _) eqn:Hw; intros [= <- <-]; (split; [|done]);
      (eapply capture_frame_trans; [exact Hs1|]).
    + split_and!; [done..| |].
      * eexists. split; [reflexivity|]. rewrite Hp. by repeat constructor.
      * intros p Hne. cbn. rewrite lookup_insert_ne; [done|congruence].
    + split_and!; [done..| |done].
      eexists. split; [reflexivity|]. rewrite Hp. by repeat constructor.
  - intros [= <- <-]. split; [exact Hs1|done].
Qed.

(** ** The engine's pass and the record loop *)

Lemma eval_tensors_unfold cb t ts s :
  eval_tensors cb (t :: ts) s =
    match cb t true s with
    | (Ret need, s1) =>
        if need then
          match cb t false s1 with
          | (Ret go_on, s2) => if go_on then eval_tensors cb ts s2 else (Ret tt, s2)
          | (Throw e, s2) => (Throw e, s2)
          end
        else eval_tensors cb ts s1
    | (Throw e, s1) => (Throw e, s1)
    end.
Proof.
  cbn [eval_tensors]. unfold mbind, M_bind.
  destruct (cb t true s) as [[[]|e] s1]; try done.
  by destruct (cb t false s1) as [[[]|e] s2].
Qed.

Lemma ggml_debug_ask D t s : ggml_debug D t true s = (Ret true, s).
Proof. reflexivity. Qed.

Section DriverProps.

Context (D : nat) (LC : Type) (add_bos : LC → bool)
        (tok : LC → string → bool → list Z)
        (plan : LC → list Z → list ggml_tensor * Z * LC).

Lemma eval_tensors_cons t ts s :
  eval_tensors (ggml_debug D) (t :: ts) s =
    match ggml_debug D t false s with
    | (Ret _, s1) => eval_tensors (ggml_debug D) ts s1
    | (Throw e, s1) => (Throw e, s1)
    end.
Proof.
  rewrite eval_tensors_unfold, ggml_debug_ask.
  destruct (ggml_debug D t false s) as [[[]|e] s1] eqn:Hrun; try done.
  by apply ggml_debug_frame in Hrun as [_ ?].
Qed.

Lemma eval_tensors_app pre post s :
  eval_tensors (ggml_debug D) (pre ++ post) s =
    match eval_tensors (ggml_debug D) pre s with
    | (Ret _, s1) => eval_tensors (ggml_debug D) post s1
    | (Throw e, s1) => (Throw e, s1)
    end.
Proof.
  revert s. induction pre as [|t pre IH]; intros s; [done|].
  rewrite <-app_comm_cons, !eval_tensors_cons.
  destruct (ggml_debug D t false s) as [[?|e] s1]; [apply IH|done].
Qed.

Lemma eval_tensors_frame ts s r s' :
  eval_tensors (ggml_debug D) ts s = (r, s') → capture_frame s s'.
Proof.
  revert s. induction ts as [|t ts IH]; intros s.
  { intros [= <- <-]. apply capture_frame_refl. }
  rewrite eval_tensors_cons.
  destruct (ggml_debug D t false s) as [[?|e] s1] eqn:Hrun;
    apply ggml_debug_frame in Hrun as [Hfr _].
  - intros Hrest. eapply capture_frame_trans; [exact Hfr|by apply IH].
  - by intros [= <- <-].
Qed.

Lemma run_one_eq prompt (d : dstate LC) :
  run_one D LC add_bos tok plan prompt d =
    let tokens := tok (ctx d) prompt (add_bos (ctx d)) in
    if decide (tokens = []) then (Ret false, d)
    else match llama_decode LC plan (ggml_debug D) tokens d with
         | (Ret r, d') =>
             if decide (r ≠ 0%Z)
             then (Ret false,
                   mk_dstate (ctx d')
                     (log d' ++ ["run_one : failed to eval" +:+ newline]) (hs d'))
             else (Ret true, d')
         | (Throw e, d') => (Throw e, d')
         end.
Proof.
  unfold run_one, mbind, M_bind, gets. cbv zeta.
  case_decide; [done|].
  destruct (llama_decode _ _ _ _ _) as [[r|e] d']; [|done].
  by case_decide.
Qed.

Lemma loop_body_eq e (d : dstate LC) :
  loop_body D LC add_bos tok plan e d =
    match run_one D LC add_bos tok plan (e_question_text e) (set_uid LC (e_uid e) d).2 with
    | (Ret ok, d') =>
        if ok then (Ret tt, d')
        else (Ret tt,
              mk_dstate (ctx d')
                (log d' ++ ["Inference failed for uid " +:+ pretty (e_uid e) +:+ newline])
                (hs d'))
    | (Throw ex, d') => (Throw ex, d')
    end.
Proof.
  unfold loop_body, mbind, M_bind. cbn [set_uid modify snd].
  destruct (run_one _ _ _ _ _ _ _) as [[[]|ex] d']; done.
Qed.

Lemma main_loop_cons e rest (d : dstate LC) :
  main_loop D LC add_bos tok plan (e :: rest) d =
    match loop_body D LC add_bos tok plan e d with
    | (Ret _, d') => main_loop D LC add_bos tok plan rest d'
    | (Throw ex, d') => (Throw ex, d')
    end.
Proof. reflexivity. Qed.

End DriverProps.


Lemma count_decodes_app l1 l2 :
  count_decodes (l1 ++ l2) = (count_decodes l1 + count_decodes l2)%nat.
Proof. unfold count_decodes. by rewrite filter_app, length_app. Qed.

Lemma count_decodes_capture path new :
  Forall (capture_op path) new → count_decodes new = 0%nat.
Proof.
  induction 1 as [|o new Ho _ IH]; [done|].
  unfold count_decodes in *. destruct o; [| |done].
  - rewrite filter_cons_False by (simpl; tauto). done.
  - rewrite filter_cons_False by (simpl; tauto). done.
Qed.

Lemma out_path_inj dir (u1 u2 : N) :
  dir +:+ "/" +:+ pretty u1 +:+ ".npy" = dir +:+ "/" +:+ pretty u2 +:+ ".npy" → u1 = u2.
Proof.
  intros H. do 2 apply String.app_inj in H.
  apply (f_equal list_ascii_of_string) in H. rewrite !chars_app in H.
  apply app_inj_2 in H as [H _]; [|done].
  by apply chars_inj, (inj pretty) in H.
Qed.

Lemma ggml_type_to_numpy_descr_unsupported type ex :
  ggml_type_to_numpy_descr type = Throw ex → ex = runtime_error "Unsupported ggml type".
Proof. destruct type; simpl; congruence. Qed.

Section LoopProps.

Context (D : nat) (LC : Type) (add_bos : LC → bool)
        (tok : LC → string → bool → list Z)
        (plan : LC → list Z → list ggml_tensor * Z * LC).

Lemma llama_decode_frame tokens (d d' : dstate LC) r :
  llama_decode LC plan (ggml_debug D) tokens d = (r, d') →
  log d' = log d ∧
  capture_frame (add_op (OpDecode tokens) (hs d)) (hs d').
Proof.
  unfold llama_decode. destruct (plan (ctx d) tokens) as [[ts status] ctx'].
  destruct (eval_tensors _ _ _) as [[?|e] h'] eqn:Hev;
    apply eval_tensors_frame in Hev; by intros [= <- <-].
Qed.

(** C8: a record whose question has no tokens, or whose decode call
    reports a failure, is logged and skipped, and the loop goes on with the
    records after it; the engine is called at most once for the record. *)
Theorem main_loop_skips_failed_record (e : json_entry) (rest : list json_entry)
    (d : dstate LC) :
  let d1 := with_uid (e_uid e) d in
  let tokens := tok (ctx d) (e_question_text e) (add_bos (ctx d)) in
  let failed := "Inference failed for uid " +:+ pretty (e_uid e) +:+ newline in
  (tokens = [] →
     main_loop D LC add_bos tok plan (e :: rest) d
       = main_loop D LC add_bos tok plan rest
           (mk_dstate (ctx d) (log d ++ [failed]) (hs d1)) ∧
     ops (hs d1) = ops (hs d) ∧ files (hs d1) = files (hs d)) ∧
  (∀ (status : Z) (d2 : dstate LC),
     tokens ≠ [] →
     llama_decode LC plan (ggml_debug D) tokens d1 = (Ret status, d2) →
     status ≠ 0%Z →
     main_loop D LC add_bos tok plan (e :: rest) d
       = main_loop D LC add_bos tok plan rest
           (mk_dstate (ctx d2)
              (log d ++ ["run_one : failed to eval" +:+ newline; failed]) (hs d2)) ∧
     count_decodes (ops (hs d2)) = S (count_decodes (ops (hs d)))).
Proof.
  intros d1 tokens failed. split.
  - intros Htok. split; [|done].
    rewrite main_loop_cons, loop_body_eq, run_one_eq. cbv zeta.
    change (ctx (set_uid LC (e_uid e) d).2) with (ctx d). fold tokens.
    rewrite decide_True by done. reflexivity.
  - intros status d2 Htok Hdec Hstatus. split.
    + rewrite main_loop_cons, loop_body_eq, run_one_eq. cbv zeta.
      change (ctx (set_uid LC (e_uid e) d).2) with (ctx d). fold tokens.
      rewrite decide_False by done.
      change (set_uid LC (e_uid e) d).2 with d1. rewrite Hdec.
      rewrite decide_True by done. cbn [log ctx hs].
      apply llama_decode_frame in Hdec as [-> _].
      by rewrite <-app_assoc.
    + apply llama_decode_frame in Hdec as (_ & _ & _ & _ & _ & (new & -> & Hnew) & _).
      cbn [add_op ops]. rewrite !count_decodes_app.
      rewrite (count_decodes_capture _ _ Hnew).
      change (ops (hs d1)) with (ops (hs d)).
      change (count_decodes [OpDecode tokens]) with 1%nat. lia.
Qed.

Lemma loop_body_frame e (d d' : dstate LC) r :
  loop_body D LC add_bos tok plan e d = (r, d') →
  hs d' = hs (with_uid (e_uid e) d) ∨
  ∃ tokens, capture_frame (add_op (OpDecode tokens) (hs (with_uid (e_uid e) d))) (hs d').
Proof.
  rewrite loop_body_eq, run_one_eq. cbv zeta. fold (with_uid (e_uid e) d).
  case_decide as Htok.
  { intros [= <- <-]. by left. }
  destruct (llama_decode _ _ _ _ _) as [[status|ex] d2] eqn:Hdec;
    apply llama_decode_frame in Hdec as [_ Hfr].
  - case_decide; intros [= <- <-]; right; eauto.
  - intros [= <- <-]; right; eauto.
Qed.

(** C10: while a record is processed the session's uid is the record's uid:
    it is so after every callback invocation of the pass and at the end;
    every file opened during the pass is the record's own
    [output_dir/<uid>.npy], no other file changes, and a record with
    another uid has another path. *)
Theorem loop_body_writes_own_file (e : json_entry) (d d' : dstate LC)
    (r : outcome unit) :
  loop_body D LC add_bos tok plan e d = (r, d') →
  let dir := output_dir (cb_data (hs d)) in
  let path := dir +:+ "/" +:+ pretty (e_uid e) +:+ ".npy" in
  let tokens := tok (ctx d) (e_question_text e) (add_bos (ctx d)) in
  uid (cb_data (hs (with_uid (e_uid e) d))) = e_uid e ∧
  (∀ ts1 ts2 status ctx' r1 s1,
     plan (ctx d) tokens = (ts1 ++ ts2, status, ctx') →
     eval_tensors (ggml_debug D) ts1
       (add_op (OpDecode tokens) (hs (with_uid (e_uid e) d))) = (r1, s1) →
     uid (cb_data s1) = e_uid e ∧ out_path_of (cb_data s1) = path) ∧
  uid (cb_data (hs d')) = e_uid e ∧
  output_dir (cb_data (hs d')) = dir ∧
  (∃ new, ops (hs d') = ops (hs d) ++ new ∧
          ∀ p ok, OpOpen p ok ∈ new → p = path) ∧
  (∀ p, p ≠ path → files (hs d') !! p = files (hs d) !! p) ∧
  (∀ e2 : json_entry, e_uid e2 ≠ e_uid e →
     let path2 := dir +:+ "/" +:+ pretty (e_uid e2) +:+ ".npy" in
     path2 ≠ path ∧ files (hs d') !! path2 = files (hs d) !! path2).
Proof.
  intros Hrun dir path tokens.
  assert (∀ p, p ≠ path → files (hs d') !! p = files (hs d) !! p) as Hfiles.
  { intros p Hp. destruct (loop_body_frame _ _ _ _ Hrun) as [->|[tk Hfr]]; [done|].
    destruct Hfr as (_ & _ & _ & _ & _ & Hf). by rewrite Hf. }
  split_and!; [done| | | | |exact Hfiles|].
  - intros ts1 ts2 status ctx' r1 s1 _ Hev.
    apply eval_tensors_frame in Hev as (Hu & _ & Ho & _).
    unfold out_path_of. rewrite Hu, Ho. done.
  - destruct (loop_body_frame _ _ _ _ Hrun) as [->|[tk Hfr]]; [done|].
    by destruct Hfr as (-> & _).
  - destruct (loop_body_frame _ _ _ _ Hrun) as [->|[tk Hfr]]; [done|].
    by destruct Hfr as (_ & _ & -> & _).
  - destruct (loop_body_frame _ _ _ _ Hrun) as [->|[tk Hfr]].
    { exists []. split; [by rewrite app_nil_r|]. by intros ?? ?%elem_of_nil. }
    destruct Hfr as (_ & _ & _ & _ & (new & Hnew & Hall) & _).
    exists (OpDecode tk :: new). split.
    { rewrite Hnew. cbn [add_op ops]. by rewrite <-app_assoc. }
    intros p ok [?|Hin]%elem_of_cons; [done|].
    rewrite Forall_forall in Hall. exact (Hall _ Hin).
  - intros e2 Hne path2.
    assert (path2 ≠ path) as Hp; [|split; [done|by apply Hfiles]].
    intros Heq. apply Hne. eapply out_path_inj, Heq.
Qed.

(** C4, as the code has it: when the capture of a matching tensor fails in
    the write step, because the element type has no descriptor or the
    destination cannot be opened, the exception leaves the callback, the
    engine's decode call, [run_one] and the record loop; nothing is logged
    and no later record is processed. *)
Theorem capture_failure_escapes_loop (e : json_entry) (rest : list json_entry)
    (d : dstate LC) (pre post : list ggml_tensor) (t : ggml_tensor)
    (status : Z) (ctx' : LC) (h1 : hstate) (ex : exn) :
  let d1 := with_uid (e_uid e) d in
  let tokens := tok (ctx d) (e_question_text e) (add_bos (ctx d)) in
  let path := output_dir (cb_data (hs d)) +:+ "/" +:+ pretty (e_uid e) +:+ ".npy" in
  tokens ≠ [] →
  plan (ctx d) tokens = (pre ++ t :: post, status, ctx') →
  eval_tensors (ggml_debug D) pre (add_op (OpDecode tokens) (hs d1)) = (Ret tt, h1) →
  t_name t = target_layer (cb_data (hs d)) →
  (ggml_type_to_numpy_descr (t_type t) = Throw ex ∧
     ex = runtime_error "Unsupported ggml type") ∨
  ((∃ descr, ggml_type_to_numpy_descr (t_type t) = Ret descr) ∧
     writable (hs d) path = false ∧
     ex = runtime_error ("Cannot open file: " +:+ path)) →
  ∃ h' : hstate,
    ggml_debug D t false h1 = (Throw ex, h') ∧
    llama_decode LC plan (ggml_debug D) tokens d1
      = (Throw ex, mk_dstate ctx' (log d) h') ∧
    run_one D LC add_bos tok plan (e_question_text e) d1
      = (Throw ex, mk_dstate ctx' (log d) h') ∧
    main_loop D LC add_bos tok plan (e :: rest) d
      = (Throw ex, mk_dstate ctx' (log d) h').
Proof.
  intros d1 tokens path Htok Hplan Hpre Hname Hfail.
  pose proof (eval_tensors_frame _ _ _ _ _ Hpre) as (Hu & Htl & Hod & Hw & _).
  cbn [add_op cb_data writable] in Hu, Htl, Hod, Hw.
  assert (out_path_of (cb_data h1) = path) as Hpath.
  { unfold out_path_of. rewrite Hu, Hod. done. }
  assert (∃ h', ggml_debug D t false h1 = (Throw ex, h')) as [h' Hhook].
  { rewrite ggml_debug_match by (rewrite Htl; exact Hname).
    cbv zeta. rewrite save_data_npy_run, Hpath.
    destruct Hfail as [[Hty ->]|([descr Hty] & Hnw & ->)]; rewrite Hty.
    - destruct (ggml_type_to_numpy_descr_unsupported _ _ Hty). eauto.
    - assert (∀ s1, writable s1 = writable h1 → writable s1 path = false) as Hs1.
      { intros s1 ->. by rewrite Hw. }
      destruct (is_host (t_buffer t)).
      + rewrite Hs1 by done. eauto.
      + rewrite Hs1 by apply after_fetch_fields. eauto. }
  exists h'. split; [exact Hhook|].
  assert (llama_decode LC plan (ggml_debug D) tokens d1
            = (Throw ex, mk_dstate ctx' (log d) h')) as Hdec.
  { unfold llama_decode. change (ctx d1) with (ctx d). rewrite Hplan.
    rewrite eval_tensors_app, Hpre, eval_tensors_cons, Hhook. done. }
  assert (run_one D LC add_bos tok plan (e_question_text e) d1
            = (Throw ex, mk_dstate ctx' (log d) h')) as Hone.
  { rewrite run_one_eq. cbv zeta. change (ctx d1) with (ctx d). fold tokens.
    rewrite decide_False by done. by rewrite Hdec. }
  split; [exact Hdec|]. split; [exact Hone|].
  rewrite main_loop_cons, loop_body_eq. fold (with_uid (e_uid e) d). fold d1.
  by rewrite Hone.
Qed.

End LoopProps.

(** ** The theorems at concrete inputs *)

Lemma main_loop_skips_failed_record_witness :
  let d0 := demo_dstate (λ _, true) in
  let next := [demo_entry 1 "hello"] in
  demo_main_loop (demo_entry 2 EmptyString :: next) d0
    = demo_main_loop next
        (mk_dstate 0 ["Inference failed for uid 2" +:+ newline] (hs (with_uid 2 d0))) ∧
  ∃ d2, demo_main_loop (demo_entry 3 "bad" :: next) d0
          = demo_main_loop next
              (mk_dstate (ctx d2)
                 ["run_one : failed to eval" +:+ newline;
                  "Inference failed for uid 3" +:+ newline] (hs d2)) ∧
        count_decodes (ops (hs d2)) = 1%nat.
Proof.
  intros d0 next. split.
  - apply (main_loop_skips_failed_record 4 nat demo_add_bos demo_tokenize demo_plan
             (demo_entry 2 EmptyString) next d0).
    reflexivity.
  - exists (llama_decode nat demo_plan (ggml_debug 4) [7%Z] (with_uid 3 d0)).2.
    destruct (main_loop_skips_failed_record 4 nat demo_add_bos demo_tokenize demo_plan
                (demo_entry 3 "bad") next d0) as [_ Hfail].
    apply (Hfail 1%Z).
    + discriminate.
    + vm_compute. reflexivity.
    + discriminate.
Defined.

Lemma loop_body_writes_own_file_witness :
  let d0 := demo_dstate (λ _, true) in
  let d' := (loop_body 4 nat demo_add_bos demo_tokenize demo_plan
               (demo_entry 1 "hello") d0).2 in
  uid (cb_data (hs d')) = 1%N ∧
  files (hs d') !! "/home/u/310-solution/npy_outputs//2.npy" = None.
Proof.
  intros d0 d'.
  destruct (loop_body_writes_own_file 4 nat demo_add_bos demo_tokenize demo_plan
              (demo_entry 1 "hello") d0 d'
              (loop_body 4 nat demo_add_bos demo_tokenize demo_plan
                 (demo_entry 1 "hello") d0).1)
    as (_ & _ & Hu & _ & _ & _ & Hother).
  - apply surjective_pairing.
  - split; [exact Hu|].
    destruct (Hother (demo_entry 2 "again")) as [_ Hf]; [discriminate|exact Hf].
Defined.

Lemma capture_failure_escapes_loop_witness :
  let d0 := demo_dstate (λ p, bool_decide (p ≠ "/home/u/310-solution/npy_outputs//1.npy")) in
  ∃ h', demo_main_loop [demo_entry 1 "hello"; demo_entry 2 "world"] d0
          = (Throw (runtime_error
                      "Cannot open file: /home/u/310-solution/npy_outputs//1.npy"),
             mk_dstate 1 [] h').
Proof.
  intros d0.
  destruct (capture_failure_escapes_loop 4 nat demo_add_bos demo_tokenize demo_plan
              (demo_entry 1 "hello") [demo_entry 2 "world"] d0
              [demo_tensor true "inp_embd"] [demo_tensor true "result"]
              (demo_tensor false "l_out-15") 0%Z 1
              (add_op (OpDecode [1%Z; 2%Z]) (hs (with_uid 1 d0)))
              (runtime_error "Cannot open file: /home/u/310-solution/npy_outputs//1.npy"))
    as (h' & _ & _ & _ & Hloop).
  - discriminate.
  - reflexivity.
  - reflexivity.
  - reflexivity.
  - right. split; [by exists "<f4"|]. split; reflexivity.
  - exists h'. exact Hloop.
Defined.

(** C4, as the specification words it, fails: here the first record's file
    cannot be opened; the loop ends with the exception instead of going on to
    the second record, whose decode call is never made and whose file is
    never written, although that record alone is processed without error. *)
Lemma capture_failure_not_caught :
  let d0 := demo_dstate (λ p, bool_decide (p ≠ "/home/u/310-solution/npy_outputs//1.npy")) in
  let both := demo_main_loop [demo_entry 1 "hello"; demo_entry 2 "world"] d0 in
  let second := demo_main_loop [demo_entry 2 "world"] d0 in
  both.1 = Throw (runtime_error "Cannot open file: /home/u/310-solution/npy_outputs//1.npy") ∧
  count_decodes (ops (hs both.2)) = 1%nat ∧
  log both.2 = [] ∧
  files (hs both.2) !! "/home/u/310-solution/npy_outputs//2.npy" = None ∧
  second.1 = Ret tt ∧
  is_Some (files (hs second.2) !! "/home/u/310-solution/npy_outputs//2.npy").
Proof.
  vm_compute. split_and!; try reflexivity. by eexists.
Qed.


(** * Further properties of the encoder *)

Lemma save_data_npy_ok_iff buf n_bytes shape type path (s : hstate) :
  (∃ s', save_data_npy buf n_bytes shape type path s = (Ret tt, s')) ↔
  (∃ descr, ggml_type_to_numpy_descr type = Ret descr) ∧ writable s path = true.
Proof.
  rewrite save_data_npy_run.
  destruct (ggml_type_to_numpy_descr type) as [descr|e].
  - destruct (writable s path); split.
    + intros _. eauto.
    + intros _. eauto.
    + by intros [? ?].
    + by intros [_ ?].
  - split; [by intros [? ?]|]. by intros [[? ?] _].
Qed.

(** X1: a call of the encoder that throws has changed no file and nothing in
    the callback data.  An unsupported element type is found before the file
    is opened, so the state is exactly as before (a file already at the path
    keeps its content); otherwise the exception is the open failure. *)
Theorem save_data_npy_failure (buf : list byte) (n_bytes : nat) (shape : list Z)
    (type : ggml_type) (path : string) (s s' : hstate) (ex : exn) :
  save_data_npy buf n_bytes shape type path s = (Throw ex, s') →
  files s' = files s ∧
  cb_data s' = cb_data s ∧
  ((ggml_type_to_numpy_descr type = Throw ex ∧
    ex = runtime_error "Unsupported ggml type" ∧ s' = s) ∨
   ((∃ descr, ggml_type_to_numpy_descr type = Ret descr) ∧
    writable s path = false ∧
    ex = runtime_error ("Cannot open file: " +:+ path) ∧
    ops s' = ops s ++ [OpOpen path false])).
Proof.
  rewrite save_data_npy_run.
  destruct (ggml_type_to_numpy_descr type) as [descr|e] eqn:Hty.
  - destruct (writable s path) eqn:Hw; [done|]. intros [= <- <-].
    split_and!; [done..|]. right. split_and!; eauto.
  - intros [= <- <-]. split_and!; [done..|]. left.
    split_and!; [done| |done]. by apply ggml_type_to_numpy_descr_unsupported in Hty.
Qed.

Lemma save_data_npy_failure_witness :
  let s := mk_hstate (mk_callback_data [] 7 "l_out-15" "out")
             {["out/7.npy" := [x01; x02]]} (λ _, true) [] in
  let r := save_data_npy [x0a; x0b] 2 [2]%Z (GGML_TYPE_other 30) "out/7.npy" s in
  files r.2 !! "out/7.npy" = Some [x01; x02] ∧ cb_data r.2 = cb_data s.
Proof.
  intros s r.
  destruct (save_data_npy_failure [x0a; x0b] 2 [2]%Z (GGML_TYPE_other 30) "out/7.npy"
              s r.2 (runtime_error "Unsupported ggml type")) as (Hf & Hc & _).
  - reflexivity.
  - split; [|exact Hc]. rewrite Hf. reflexivity.
Defined.

(** X2: a call of the encoder that returns has replaced the file at [path]
    and nothing else: the other files are as before, the content written does
    not depend on what the file held, and repeating the call leaves the file
    system as it is (the file is truncated, never appended to). *)
Theorem save_data_npy_overwrites (buf : list byte) (n_bytes : nat) (shape : list Z)
    (type : ggml_type) (path : string) (s s1 : hstate) :
  save_data_npy buf n_bytes shape type path s = (Ret tt, s1) →
  (∀ p, p ≠ path → files s1 !! p = files s !! p) ∧
  (∀ old : list byte,
     files (save_data_npy buf n_bytes shape type path
              (set_files (<[path := old]> (files s)) s)).2 !! path
       = files s1 !! path) ∧
  cb_data s1 = cb_data s ∧
  ops s1 = ops s ++ [OpOpen path true] ∧
  ∃ s2, save_data_npy buf n_bytes shape type path s1 = (Ret tt, s2) ∧
        files s2 = files s1.
Proof.
  intros Hrun. rewrite save_data_npy_run in Hrun.
  destruct (ggml_type_to_numpy_descr type) as [descr|e] eqn:Hty; [|done].
  destruct (writable s path) eqn:Hw; [|done]. injection Hrun as <-.
  split_and!.
  - intros p Hp. cbn [files add_op set_files]. by rewrite lookup_insert_ne.
  - intros old. rewrite save_data_npy_run, Hty. cbn [writable set_files]. rewrite Hw.
    cbn [files add_op set_files snd]. by rewrite !lookup_insert_eq.
  - done.
  - done.
  - rewrite save_data_npy_run, Hty. cbn [writable add_op set_files]. rewrite Hw.
    eexists. split; [reflexivity|]. cbn [files add_op set_files].
    by rewrite insert_insert_eq.
Qed.

Lemma save_data_npy_overwrites_witness :
  let s := mk_hstate (mk_callback_data [] 7 "l_out-15" "out")
             {["out/7.npy" := [x01; x02]; "out/8.npy" := [x03]]} (λ _, true) [] in
  let r := save_data_npy [x0a; x0b] 2 [2]%Z GGML_TYPE_I8 "out/7.npy" s in
  files r.2 !! "out/8.npy" = Some [x03] ∧
  files (save_data_npy [x0a; x0b] 2 [2]%Z GGML_TYPE_I8 "out/7.npy" r.2).2 = files r.2.
Proof.
  intros s r.
  destruct (save_data_npy_overwrites [x0a; x0b] 2 [2]%Z GGML_TYPE_I8 "out/7.npy" s r.2)
    as (Hother & _ & _ & _ & s2 & Hrun & Hfiles).
  - vm_compute. reflexivity.
  - split.
    + rewrite Hother by discriminate. reflexivity.
    + rewrite Hrun. exact Hfiles.
Defined.

(** X3: the encoder returns exactly when the element type has a descriptor
    and the destination can be opened; the buffer, its size and the shape
    play no part in whether it fails. *)
Theorem save_data_npy_succeeds_iff (buf : list byte) (n_bytes : nat) (shape : list Z)
    (type : ggml_type) (path : string) (s : hstate) :
  (∃ s', save_data_npy buf n_bytes shape type path s = (Ret tt, s')) ↔
  (∃ descr, ggml_type_to_numpy_descr type = Ret descr) ∧ writable s path = true.
Proof. apply save_data_npy_ok_iff. Qed.

(** ** Reading a written file back *)

Lemma npy_file_length descr shape payload :
  length (npy_file descr shape payload)
    = 10 + String.length (padded_header (header_text descr shape)) + length payload.
Proof.
  unfold npy_file. cbv zeta. rewrite !length_app, bytes_length.
  change (length magic) with 6. simpl. lia.
Qed.

Lemma npy_file_split descr shape payload :
  ∃ lo hi,
    npy_file descr shape payload
      = [x93; x4e; x55; x4d; x50; x59; x01; x00; lo; hi]
          ++ list_byte_of_string (padded_header (header_text descr shape)) ++ payload ∧
    (Z.of_N (Byte.to_N lo) + 256 * Z.of_N (Byte.to_N hi)
       = Z.of_nat (String.length (padded_header (header_text descr shape))) `mod` 65536)%Z.
Proof.
  eexists _, _. split; [reflexivity|]. apply uint16_le_value.
Qed.

(** X4: a file written by the encoder can be read back.  Its length is ten
    plus the padded header length plus the payload length, so the payload
    starts at a multiple of 64; and when the padded header is shorter than
    65536 bytes, bytes 8 and 9 give that length, the header text follows
    from byte 10, and what comes after it is exactly the payload. *)
Theorem save_data_npy_read_back (buf : list byte) (n_bytes : nat) (shape : list Z)
    (type : ggml_type) (path : string) (s s' : hstate) :
  save_data_npy buf n_bytes shape type path s = (Ret tt, s') →
  ∃ (descr : string) (file : list byte),
    let padded := padded_header (header_text descr shape) in
    let payload := take n_bytes buf in
    ggml_type_to_numpy_descr type = Ret descr ∧
    files s' !! path = Some file ∧
    length file = 10 + String.length padded + length payload ∧
    (length file - length payload) `mod` 64 = 0 ∧
    take 8 file = [x93; x4e; x55; x4d; x50; x59; x01; x00] ∧
    ((Z.of_nat (String.length padded) < 65536)%Z →
     ∃ b8 b9 : byte,
       file !! 8 = Some b8 ∧ file !! 9 = Some b9 ∧
       let hlen := N.to_nat (Byte.to_N b8 + 256 * Byte.to_N b9) in
       hlen = String.length padded ∧
       take hlen (drop 10 file) = list_byte_of_string padded ∧
       drop (10 + hlen) file = payload).
Proof.
  intros Hrun. rewrite save_data_npy_run in Hrun.
  destruct (ggml_type_to_numpy_descr type) as [descr|e]; [|done].
  destruct (writable s path); [|done]. injection Hrun as <-.
  exists descr, (npy_file descr shape (take n_bytes buf)). cbv zeta.
  destruct (npy_file_split descr shape (take n_bytes buf)) as (lo & hi & Hsplit & Hlen).
  split_and!.
  - done.
  - cbn [files add_op set_files]. by rewrite lookup_insert_eq.
  - apply npy_file_length.
  - rewrite npy_file_length.
    replace (10 + String.length (padded_header (header_text descr shape))
               + length (take n_bytes buf) - length (take n_bytes buf))
      with (10 + String.length (padded_header (header_text descr shape))) by lia.
    apply padded_header_aligned.
  - by rewrite Hsplit.
  - intros Hsmall. exists lo, hi. rewrite Hsplit.
    split; [done|]. split; [done|]. cbv zeta.
    rewrite Z.mod_small in Hlen by lia.
    assert (N.to_nat (Byte.to_N lo + 256 * Byte.to_N hi)
              = String.length (padded_header (header_text descr shape))) as -> by lia.
    split; [done|]. split.
    + change (drop 10 (?a ++ ?b)) with b.
      rewrite take_app_length'; [done|]. by rewrite bytes_length.
    + rewrite <-drop_drop. change (drop 10 (?a ++ ?b)) with b.
      rewrite drop_app_length'; [done|]. by rewrite bytes_length.
Qed.

Lemma save_data_npy_read_back_witness :
  ∃ file, files (save_data_npy [x0a; x0b; x0c; x0d; x0e] 4 [2; 3]%Z GGML_TYPE_F32
                   "out/7.npy" demo_world).2 !! "out/7.npy" = Some file ∧
          length file = 132 ∧ drop 128 file = [x0a; x0b; x0c; x0d].
Proof.
  destruct (save_data_npy_read_back [x0a; x0b; x0c; x0d; x0e] 4 [2; 3]%Z GGML_TYPE_F32
              "out/7.npy" demo_world
              (save_data_npy [x0a; x0b; x0c; x0d; x0e] 4 [2; 3]%Z GGML_TYPE_F32
                 "out/7.npy" demo_world).2)
    as (descr & file & Hd & Hf & Hlen & _ & _ & Hback).
  - vm_compute. reflexivity.
  - injection Hd as <-. exists file. split; [exact Hf|].
    destruct Hback as (b8 & b9 & _ & _ & Hh & _ & Hpay); [vm_compute; reflexivity|].
    split; [exact Hlen|]. rewrite Hh in Hpay. exact Hpay.
Defined.

(** ** The size of the header *)

Lemma pretty_N_go_length (k : nat) (x : N) s :
  (x < 10 ^ N.of_nat k)%N →
  (String.length (pretty_N_go x s) ≤ String.length s + k)%nat.
Proof.
  revert x s. induction k as [|k IH]; intros x s Hx.
  - assert (x = 0%N) as -> by (simpl in Hx; lia). rewrite pretty_N_go_0. lia.
  - destruct (decide (x = 0)%N) as [->|Hne]; [rewrite pretty_N_go_0; lia|].
    rewrite pretty_N_go_step by lia.
    etrans; [apply IH|simpl; lia].
    apply N.Div0.div_lt_upper_bound.
    rewrite Nat2N.inj_succ, N.pow_succ_r' in Hx. lia.
Qed.

Lemma pretty_N_length (k : nat) (x : N) :
  (x < 10 ^ N.of_nat (S k))%N → (String.length (pretty x) ≤ S k)%nat.
Proof.
  intros Hx. unfold pretty, pretty_N. case_decide; [simpl; lia|].
  etrans; [by apply pretty_N_go_length|]. simpl. lia.
Qed.

Lemma pretty_int64_length (z : Z) :
  (- 2 ^ 63 ≤ z < 2 ^ 63)%Z → (String.length (pretty z) ≤ 20)%nat.
Proof.
  intros Hz. destruct z as [|p|p]; unfold pretty, pretty_Z; [simpl; lia| |].
  - unfold pretty, pretty_positive.
    etrans; [apply (pretty_N_length 18)|lia]. lia.
  - rewrite str_length_app. unfold pretty, pretty_positive.
    etrans; [apply Nat.add_le_mono_l, (pretty_N_length 18)|simpl; lia]. lia.
Qed.

Lemma sep_tail_length (l : list Z) :
  Forall (λ z, (- 2 ^ 63 ≤ z < 2 ^ 63)%Z) l →
  (String.length (sep_tail ", " (pretty <$> l)) ≤ 22 * length l)%nat.
Proof.
  induction 1 as [|z l Hz _ IH]; [simpl; lia|].
  cbn [fmap list_fmap sep_tail length]. rewrite !str_length_app.
  apply pretty_int64_length in Hz. change (String.length ", ") with 2. lia.
Qed.

Lemma header_text_length descr (shape : list Z) :
  Forall (λ z, (- 2 ^ 63 ≤ z < 2 ^ 63)%Z) shape →
  (String.length (header_text descr shape)
     ≤ 51 + String.length descr + 22 * length shape)%nat.
Proof.
  intros Hshape. unfold header_text. cbv zeta. rewrite shape_loop_join.
  assert (String.length (join ", " (pretty <$> shape)) ≤ 22 * length shape)%nat as Hjoin.
  { destruct Hshape as [|z l Hz Hl]; [simpl; lia|].
    cbn [fmap list_fmap join length]. rewrite str_length_app.
    apply pretty_int64_length in Hz. apply sep_tail_length in Hl. lia. }
  case_decide; rewrite !str_length_app; simpl; lia.
Qed.

Lemma header_pad_lt header : (header_pad header < 64)%nat.
Proof. unfold header_pad. apply Nat.mod_upper_bound. lia. Qed.

Lemma descr_length type descr :
  ggml_type_to_numpy_descr type = Ret descr → String.length descr = 3.
Proof. destruct type; intros [= <-]; reflexivity. Qed.

Lemma npy_file_read_back descr shape payload :
  (Z.of_nat (String.length (padded_header (header_text descr shape))) < 65536)%Z →
  ∃ b8 b9 : byte,
    npy_file descr shape payload !! 8 = Some b8 ∧
    npy_file descr shape payload !! 9 = Some b9 ∧
    N.to_nat (Byte.to_N b8 + 256 * Byte.to_N b9)
      = String.length (padded_header (header_text descr shape)) ∧
    drop (10 + String.length (padded_header (header_text descr shape)))
      (npy_file descr shape payload) = payload.
Proof.
  intros Hsmall.
  destruct (npy_file_split descr shape payload) as (lo & hi & Hsplit & Hlen).
  exists lo, hi. rewrite Hsplit. split; [done|]. split; [done|].
  rewrite Z.mod_small in Hlen by lia. split; [lia|].
  rewrite <-drop_drop. change (drop 10 (?a ++ ?b)) with b.
  rewrite drop_app_length'; [done|]. by rewrite bytes_length.
Qed.

Lemma ggml_debug_written_bytes D t s s' :
  t_name t = target_layer (cb_data s) →
  (ggml_nbytes t ≤ length (t_data t))%nat →
  ggml_debug D t false s = (Ret true, s') →
  ∃ descr,
    ggml_type_to_numpy_descr (t_type t) = Ret descr ∧
    files s' !! out_path_of (cb_data s)
      = Some (npy_file descr (build_shape D t) (take (ggml_nbytes t) (t_data t))).
Proof.
  intros Hname Hlen Hrun. rewrite ggml_debug_match in Hrun by done. cbv zeta in Hrun.
  rewrite save_data_npy_run in Hrun.
  destruct (ggml_type_to_numpy_descr (t_type t)) as [descr|e]; [|done].
  destruct (writable _ _); [|done]. simplify_eq/=.
  exists descr. split; [done|]. rewrite lookup_insert_eq. do 2 f_equal.
  destruct (is_host (t_buffer t)); [done|].
  by rewrite after_fetch_data, take_take, Nat.min_id.
Qed.

Lemma build_shape_int64 D t :
  (∀ i, (i < D)%nat → (- 2 ^ 63 ≤ t_ne t i < 2 ^ 63)%Z) →
  Forall (λ z, (- 2 ^ 63 ≤ z < 2 ^ 63)%Z) (build_shape D t) ∧
  (length (build_shape D t) ≤ D `max` 1)%nat.
Proof.
  intros Hne. rewrite build_shape_spec. case_decide as HD.
  - split; [|simpl; lia]. repeat constructor; lia.
  - split; [|rewrite length_fmap, length_seq; lia].
    apply Forall_fmap, Forall_forall. intros i Hi%elem_of_seq. apply Hne. lia.
Qed.

(** X5: for the files the callback writes the sixteen-bit length field never
    wraps.  With a maximum rank of at most 2900 and extents that are 64-bit
    integers, the padded header is shorter than 65536 bytes, bytes 8 and 9 of
    the file give its exact length, and the bytes after the header are the
    tensor's [ggml_nbytes] bytes. *)
Theorem ggml_debug_file_reads_back (D : nat) (t : ggml_tensor) (s s' : hstate) :
  t_name t = target_layer (cb_data s) →
  (D ≤ 2900)%nat →
  (∀ i, (i < D)%nat → (- 2 ^ 63 ≤ t_ne t i < 2 ^ 63)%Z) →
  (ggml_nbytes t ≤ length (t_data t))%nat →
  ggml_debug D t false s = (Ret true, s') →
  ∃ (descr : string) (file : list byte) (b8 b9 : byte),
    let hlen := String.length (padded_header (header_text descr (build_shape D t))) in
    ggml_type_to_numpy_descr (t_type t) = Ret descr ∧
    files s' !! out_path_of (cb_data s) = Some file ∧
    (Z.of_nat hlen < 65536)%Z ∧
    file !! 8 = Some b8 ∧ file !! 9 = Some b9 ∧
    N.to_nat (Byte.to_N b8 + 256 * Byte.to_N b9) = hlen ∧
    drop (10 + hlen) file = take (ggml_nbytes t) (t_data t) ∧
    length (drop (10 + hlen) file) = ggml_nbytes t.
Proof.
  intros Hname HD Hne Hlen Hrun.
  destruct (ggml_debug_written_bytes D t s s' Hname Hlen Hrun) as (descr & Hty & Hf).
  destruct (build_shape_int64 D t Hne) as [Hall Hrank].
  pose proof (header_text_length descr _ Hall) as Hhdr.
  rewrite (descr_length _ _ Hty) in Hhdr.
  assert (Z.of_nat (String.length (padded_header (header_text descr (build_shape D t))))
            < 65536)%Z as Hpad.
  { unfold padded_header. rewrite str_length_app, spaces_length.
    pose proof (header_pad_lt (header_text descr (build_shape D t))). lia. }
  destruct (npy_file_read_back descr (build_shape D t) (take (ggml_nbytes t) (t_data t)))
    as (b8 & b9 & H8 & H9 & Hh & Hpay); [lia|].
  exists descr, (npy_file descr (build_shape D t) (take (ggml_nbytes t) (t_data t))), b8, b9.
  cbv zeta.
  split_and!; [done|exact Hf|done|done|done|done|done|].
  rewrite Hpay, length_take. lia.
Qed.

Lemma ggml_debug_file_reads_back_witness :
  ∃ file, files (ggml_debug 4 (demo_tensor false "l_out-15") false demo_world).2
            !! "out/7.npy" = Some file ∧
          drop 128 file = [x0a; x0b; x0c; x0d].
Proof.
  destruct (ggml_debug_file_reads_back 4 (demo_tensor false "l_out-15") demo_world
              (ggml_debug 4 (demo_tensor false "l_out-15") false demo_world).2)
    as (descr & file & b8 & b9 & Hd & Hf & _ & _ & _ & _ & Hpay & _).
  - reflexivity.
  - lia.
  - intros [|[|[|[|i]]]] Hi; simpl; lia.
  - simpl. lia.
  - vm_compute. reflexivity.
  - injection Hd as <-. exists file. split; [exact Hf|exact Hpay].
Defined.


(** * Further properties of the callback *)

Lemma save_data_npy_failure_cases buf n_bytes shape type path (s s' : hstate) ex :
  save_data_npy buf n_bytes shape type path s = (Throw ex, s') →
  (ggml_type_to_numpy_descr type = Throw ex ∧
   ex = runtime_error "Unsupported ggml type" ∧ s' = s) ∨
  ((∃ descr, ggml_type_to_numpy_descr type = Ret descr) ∧
   writable s path = false ∧
   ex = runtime_error ("Cannot open file: " +:+ path) ∧
   s' = add_op (OpOpen path false) s).
Proof.
  rewrite save_data_npy_run.
  destruct (ggml_type_to_numpy_descr type) as [descr|e] eqn:Hty.
  - destruct (writable s path) eqn:Hw; [done|]. intros [= <- <-]. right. eauto.
  - intros [= <- <-]. left. split; [done|]. split; [|done].
    by apply ggml_type_to_numpy_descr_unsupported in Hty.
Qed.

Lemma ggml_debug_throw D t s ex s' :
  t_name t = target_layer (cb_data s) →
  ggml_debug D t false s = (Throw ex, s') →
  (s' = (if is_host (t_buffer t) then s else after_fetch t s) ∧
   ggml_type_to_numpy_descr (t_type t) = Throw ex ∧
   ex = runtime_error "Unsupported ggml type")
  ∨
  ((∃ descr, ggml_type_to_numpy_descr (t_type t) = Ret descr) ∧
   writable s (out_path_of (cb_data s)) = false ∧
   ex = runtime_error ("Cannot open file: " +:+ out_path_of (cb_data s)) ∧
   s' = add_op (OpOpen (out_path_of (cb_data s)) false)
          (if is_host (t_buffer t) then s else after_fetch t s)).
Proof.
  intros Hname Hrun. rewrite ggml_debug_match in Hrun by done. cbv zeta in Hrun.
  set (s1 := if is_host (t_buffer t) then s else after_fetch t s) in *.
  assert (writable s1 = writable s) as Hw.
  { subst s1. destruct (is_host (t_buffer t)); [done|]. apply after_fetch_fields. }
  destruct (save_data_npy _ _ _ _ _ s1) as [[[]|ex'] s2] eqn:Hsave; [done|].
  injection Hrun as -> ->.
  apply save_data_npy_failure_cases in Hsave as [(Hty & -> & ->)|(Hty & Hnw & -> & ->)].
  - left. done.
  - right. rewrite Hw in Hnw. done.
Qed.

(** X6: the callback never returns false.  Asked, it returns true and
    changes nothing; acting, it returns true or throws, and it throws only
    for a tensor named like the target layer, with one of the two errors of
    the encoder. *)
Theorem ggml_debug_returns_true (D : nat) (t : ggml_tensor) (ask : bool)
    (s s' : hstate) (r : outcome bool) :
  ggml_debug D t ask s = (r, s') →
  (ask = true → r = Ret true ∧ s' = s) ∧
  (r = Ret true ∨
   ∃ ex, r = Throw ex ∧ ask = false ∧
         t_name t = target_layer (cb_data s) ∧
         (ex = runtime_error "Unsupported ggml type" ∨
          ex = runtime_error ("Cannot open file: " +:+ out_path_of (cb_data s)))).
Proof.
  intros Hrun. destruct ask.
  { injection Hrun as <- <-. split; [done|by left]. }
  split; [done|].
  destruct (decide (t_name t = target_layer (cb_data s))) as [Hname|Hname].
  2:{ rewrite ggml_debug_skip in Hrun by done. injection Hrun as <- <-. by left. }
  destruct r as [b|ex].
  - left. apply ggml_debug_frame in Hrun as [_ Hb]. by destruct b.
  - right. exists ex. split_and!; [done..|].
    apply (ggml_debug_throw _ _ _ _ _ Hname) in Hrun as [(_ & _ & ->)|(_ & _ & -> & _)];
      auto.
Qed.

Lemma ggml_debug_returns_true_witness :
  (ggml_debug 4 (demo_tensor false "l_out-15") false demo_world).1 = Ret true.
Proof.
  destruct (ggml_debug_returns_true 4 (demo_tensor false "l_out-15") false demo_world
              (ggml_debug 4 (demo_tensor false "l_out-15") false demo_world).2
              (ggml_debug 4 (demo_tensor false "l_out-15") false demo_world).1)
    as [_ [Hr|(ex & Hex & _)]].
  - apply surjective_pairing.
  - exact Hr.
  - vm_compute in Hex. discriminate Hex.
Defined.

(** X7: a capture that fails changes no file, and its order of work shows:
    for a tensor that is not host-resident the staging buffer has already
    been resized and the tensor read from the device when the exception is
    thrown, also when the cause is the element type. *)
Theorem ggml_debug_failure (D : nat) (t : ggml_tensor) (s s' : hstate) (ex : exn) :
  ggml_debug D t false s = (Throw ex, s') →
  files s' = files s ∧
  (is_host (t_buffer t) = true → cb_data s' = cb_data s) ∧
  (is_host (t_buffer t) = false →
     length (data (cb_data s')) = ggml_nbytes t ∧
     ((ggml_nbytes t ≤ length (t_data t))%nat →
      data (cb_data s') = take (ggml_nbytes t) (t_data t)) ∧
     ∃ rest, ops s' = ops s ++ OpTensorGet (t_name t) 0 (ggml_nbytes t) :: rest ∧
             (ggml_type_to_numpy_descr (t_type t) = Throw ex → rest = [])).
Proof.
  intros Hrun.
  assert (t_name t = target_layer (cb_data s)) as Hname.
  { destruct (decide (t_name t = target_layer (cb_data s))); [done|].
    by rewrite ggml_debug_skip in Hrun. }
  destruct (after_fetch_fields t s) as (Hf & _ & Ho & _ & _ & _ & Hlen).
  assert (length (data (cb_data (after_fetch t s))) = ggml_nbytes t) as Hn by lia.
  pose proof (after_fetch_data t s) as Hdata.
  apply (ggml_debug_throw _ _ _ _ _ Hname) in Hrun
    as [(-> & Hty & _)|((d & Hty) & _ & _ & ->)];
    destruct (is_host (t_buffer t)); split_and!; try done.
  - intros _. split_and!; [done..|]. exists []. by rewrite Ho.
  - intros _. split_and!; [done..|]. cbn [add_op ops]. rewrite Ho, <-app_assoc.
    eexists. split; [done|]. by rewrite Hty.
Qed.

Lemma ggml_debug_failure_witness :
  let t := mk_tensor (GGML_TYPE_other 30) (mk_buffer false) (λ _, 1%Z) 2 [x0a; x0b]
             "l_out-15" in
  let r := ggml_debug 4 t false demo_world in
  files r.2 = files demo_world ∧ data (cb_data r.2) = [x0a; x0b].
Proof.
  intros t r.
  destruct (ggml_debug_failure 4 t demo_world r.2 (runtime_error "Unsupported ggml type"))
    as (Hf & _ & Hdev).
  - reflexivity.
  - split; [exact Hf|]. destruct Hdev as (_ & Hd & _); [reflexivity|].
    apply Hd. simpl. lia.
Defined.


(** * Further properties of a pass and of the record loop *)

Lemma eval_tensors_no_match D ts s :
  Forall (λ u, t_name u ≠ target_layer (cb_data s)) ts →
  eval_tensors (ggml_debug D) ts s = (Ret tt, s).
Proof.
  induction 1 as [|u ts Hu _ IH]; [done|].
  by rewrite eval_tensors_cons, ggml_debug_skip.
Qed.

(** X8: within one pass the last matching tensor wins.  When the pass ends
    without an exception, the record's file holds the encoding of the last
    tensor named like the target layer, whatever matching tensors came before
    it: the callback does not stop after its first capture, and each capture
    overwrites the one before. *)
Theorem eval_tensors_last_capture (D : nat) (pre post : list ggml_tensor)
    (t : ggml_tensor) (s s' : hstate) :
  eval_tensors (ggml_debug D) (pre ++ t :: post) s = (Ret tt, s') →
  t_name t = target_layer (cb_data s) →
  Forall (λ u, t_name u ≠ target_layer (cb_data s)) post →
  (ggml_nbytes t ≤ length (t_data t))%nat →
  ∃ descr,
    ggml_type_to_numpy_descr (t_type t) = Ret descr ∧
    files s' !! out_path_of (cb_data s)
      = Some (npy_file descr (build_shape D t) (take (ggml_nbytes t) (t_data t))).
Proof.
  intros Hrun Hname Hpost Hlen. rewrite eval_tensors_app in Hrun.
  destruct (eval_tensors (ggml_debug D) pre s) as [[[]|ex] s1] eqn:Hpre; [|done].
  apply eval_tensors_frame in Hpre as (Hu & Htl & Hod & _).
  rewrite eval_tensors_cons in Hrun.
  destruct (ggml_debug D t false s1) as [[b|ex] s2] eqn:Ht; [|done].
  pose proof (ggml_debug_frame _ _ _ _ _ _ Ht) as [(_ & Htl2 & _) Hb].
  assert (b = true) as -> by by destruct b.
  rewrite eval_tensors_no_match in Hrun by (by rewrite Htl2, Htl).
  injection Hrun as <-.
  apply ggml_debug_written_bytes in Ht as (descr & Hty & Hf); [|congruence|done].
  exists descr. split; [done|]. rewrite <-Hf. f_equal.
  unfold out_path_of. by rewrite Hu, Hod.
Qed.

Lemma eval_tensors_last_capture_witness :
  let first := mk_tensor GGML_TYPE_I8 (mk_buffer true) (λ _, 1%Z) 1 [x01] "l_out-15" in
  let s' := (eval_tensors (ggml_debug 4)
               [first; demo_tensor true "l_out-15"; demo_tensor true "result"]
               demo_world).2 in
  files s' !! "out/7.npy"
    = Some (npy_file "<f4" [2; 3; 1; 1]%Z [x0a; x0b; x0c; x0d]).
Proof.
  intros first s'.
  destruct (eval_tensors_last_capture 4 [first] [demo_tensor true "result"]
              (demo_tensor true "l_out-15") demo_world s') as (descr & Hd & Hf).
  - vm_compute. reflexivity.
  - reflexivity.
  - repeat constructor. discriminate.
  - simpl. lia.
  - injection Hd as <-. exact Hf.
Defined.

Section MoreLoopProps.

Context (D : nat) (LC : Type) (add_bos : LC → bool)
        (tok : LC → string → bool → list Z)
        (plan : LC → list Z → list ggml_tensor * Z * LC).

(** X9: a record whose pass evaluates no tensor named like the target layer
    leaves no trace but the decode call: when the decode succeeds no file is
    written and nothing is logged, so a target layer name that never occurs
    goes unnoticed. *)
Theorem loop_body_no_match (e : json_entry) (d : dstate LC)
    (ts : list ggml_tensor) (ctx' : LC) :
  let d1 := with_uid (e_uid e) d in
  let tokens := tok (ctx d) (e_question_text e) (add_bos (ctx d)) in
  tokens ≠ [] →
  plan (ctx d) tokens = (ts, 0%Z, ctx') →
  Forall (λ u, t_name u ≠ target_layer (cb_data (hs d))) ts →
  loop_body D LC add_bos tok plan e d
    = (Ret tt, mk_dstate ctx' (log d) (add_op (OpDecode tokens) (hs d1))) ∧
  files (add_op (OpDecode tokens) (hs d1)) = files (hs d).
Proof.
  intros d1 tokens Htok Hplan Hts. split; [|done].
  rewrite loop_body_eq, run_one_eq. cbv zeta. fold (with_uid (e_uid e) d). fold d1.
  change (ctx d1) with (ctx d). fold tokens. rewrite decide_False by done.
  unfold llama_decode. change (ctx d1) with (ctx d). rewrite Hplan.
  rewrite eval_tensors_no_match by done. by rewrite decide_False by (intros ?; done).
Qed.

End MoreLoopProps.

Lemma loop_body_no_match_witness :
  let plan (c : nat) (tokens : list Z) := ([demo_tensor true "l_out-14"], 0%Z, S c) in
  (loop_body 4 nat demo_add_bos demo_tokenize plan (demo_entry 1 "hello")
     (demo_dstate (λ _, true))).1 = Ret tt ∧
  files (hs (loop_body 4 nat demo_add_bos demo_tokenize plan (demo_entry 1 "hello")
               (demo_dstate (λ _, true))).2) = ∅.
Proof.
  intros plan.
  destruct (loop_body_no_match 4 nat demo_add_bos demo_tokenize plan
              (demo_entry 1 "hello") (demo_dstate (λ _, true))
              [demo_tensor true "l_out-14"] 1) as [Hrun Hfiles].
  - discriminate.
  - reflexivity.
  - repeat constructor. discriminate.
  - rewrite Hrun. split; [reflexivity|exact Hfiles].
Defined.


Lemma eval_tensors_throw D ts s ex s' :
  eval_tensors (ggml_debug D) ts s = (Throw ex, s') →
  capture_error (out_path_of (cb_data s)) ex.
Proof.
  revert s. induction ts as [|t ts IH]; intros s; [done|].
  rewrite eval_tensors_cons.
  destruct (ggml_debug D t false s) as [[b|ex'] s1] eqn:Ht.
  - intros Hrest. apply IH in Hrest.
    apply ggml_debug_frame in Ht as [(Hu & _ & Hod & _) _].
    unfold out_path_of in *. by rewrite Hu, Hod in Hrest.
  - intros [= <- <-].
    assert (t_name t = target_layer (cb_data s)) as Hname.
    { destruct (decide (t_name t = target_layer (cb_data s))); [done|].
      by rewrite ggml_debug_skip in Ht. }
    apply (ggml_debug_throw _ _ _ _ _ Hname) in Ht as [(_ & _ & ->)|(_ & _ & -> & _)].
    + by left.
    + by right.
Qed.

Section LoopRuns.

Context (D : nat) (LC : Type) (add_bos : LC → bool)
        (tok : LC → string → bool → list Z)
        (plan : LC → list Z → list ggml_tensor * Z * LC).

Lemma llama_decode_throw tokens (d d' : dstate LC) ex :
  llama_decode LC plan (ggml_debug D) tokens d = (Throw ex, d') →
  capture_error (out_path_of (cb_data (hs d))) ex.
Proof.
  unfold llama_decode. destruct (plan (ctx d) tokens) as [[ts status] ctx'].
  destruct (eval_tensors _ _ _) as [[?|ex'] h'] eqn:Hev; [done|].
  intros [= <- <-]. by apply eval_tensors_throw in Hev.
Qed.

Lemma loop_body_throw e (d d' : dstate LC) ex :
  loop_body D LC add_bos tok plan e d = (Throw ex, d') →
  capture_error (record_path (output_dir (cb_data (hs d))) (e_uid e)) ex.
Proof.
  rewrite loop_body_eq, run_one_eq. cbv zeta. case_decide; [done|].
  destruct (llama_decode _ _ _ _ _) as [[status|ex'] d2] eqn:Hdec.
  - by case_decide.
  - intros [= <- <-]. by apply llama_decode_throw in Hdec.
Qed.

Lemma loop_body_kept e (d d' : dstate LC) r :
  loop_body D LC add_bos tok plan e d = (r, d') →
  session_kept (hs d) (hs d') ∧
  (∀ p, p ≠ record_path (output_dir (cb_data (hs d))) (e_uid e) →
        files (hs d') !! p = files (hs d) !! p) ∧
  (count_decodes (ops (hs d')) ≤ S (count_decodes (ops (hs d))))%nat ∧
  (length (log d') ≤ 2 + length (log d))%nat.
Proof.
  intros Hrun.
  assert (length (log d') ≤ 2 + length (log d))%nat as Hlog.
  { revert Hrun. rewrite loop_body_eq, run_one_eq. cbv zeta. case_decide.
    - intros [= <- <-]. cbn. rewrite length_app. simpl. lia.
    - destruct (llama_decode _ _ _ _ _) as [[status|ex'] d2] eqn:Hdec;
        apply llama_decode_frame in Hdec as [Hl _]; cbn in Hl.
      + case_decide; intros [= <- <-]; cbn; rewrite ?length_app, Hl; simpl; lia.
      + intros [= <- <-]. rewrite Hl. lia. }
  destruct (loop_body_frame _ _ _ _ _ _ _ _ _ Hrun) as [->|[tk Hfr]].
  { split_and!; [done|done| |done].
    change (ops (hs (with_uid (e_uid e) d))) with (ops (hs d)). lia. }
  destruct Hfr as (_ & Htl & Hod & Hw & (new & Hnew & Hall) & Hf).
  split_and!; [done|exact Hf| |done].
  rewrite Hnew. cbn [add_op ops with_uid set_uid modify snd hs set_cb_data].
  rewrite !count_decodes_app, (count_decodes_capture _ _ Hall).
  change (count_decodes [OpDecode tk]) with 1%nat. lia.
Qed.

(** X10: the record loop ends early only through a failed capture.  When it
    ends with an exception, that is the unsupported-type error or the failure
    to open the file of one of the records. *)
Theorem main_loop_throw (entries : list json_entry) (d d' : dstate LC) (ex : exn) :
  main_loop D LC add_bos tok plan entries d = (Throw ex, d') →
  ∃ e, e ∈ entries ∧
       capture_error (record_path (output_dir (cb_data (hs d))) (e_uid e)) ex.
Proof.
  revert d. induction entries as [|e rest IH]; intros d; [done|].
  rewrite main_loop_cons.
  destruct (loop_body D LC add_bos tok plan e d) as [[[]|ex'] d1] eqn:Hbody.
  - intros Hrest. apply IH in Hrest as (e' & Hin & Herr).
    apply loop_body_kept in Hbody as ((_ & Hod & _) & _). rewrite Hod in Herr.
    exists e'. split; [by right|done].
  - intros [= <- <-]. exists e. split; [by left|]. by apply loop_body_throw in Hbody.
Qed.

(** X11: however the loop ends, it has called the engine at most once per
    record and logged at most two lines per record; the target layer, the
    output directory and every file that is not one of the records' output
    files are as they were. *)
Theorem main_loop_footprint (entries : list json_entry) (d d' : dstate LC)
    (r : outcome unit) :
  main_loop D LC add_bos tok plan entries d = (r, d') →
  (count_decodes (ops (hs d')) ≤ count_decodes (ops (hs d)) + length entries)%nat ∧
  (length (log d') ≤ length (log d) + 2 * length entries)%nat ∧
  target_layer (cb_data (hs d')) = target_layer (cb_data (hs d)) ∧
  output_dir (cb_data (hs d')) = output_dir (cb_data (hs d)) ∧
  (∀ p, (∀ e, e ∈ entries → p ≠ record_path (output_dir (cb_data (hs d))) (e_uid e)) →
        files (hs d') !! p = files (hs d) !! p).
Proof.
  revert d. induction entries as [|e rest IH]; intros d.
  { intros [= <- <-]. split_and!; try done; simpl; lia. }
  rewrite main_loop_cons.
  destruct (loop_body D LC add_bos tok plan e d) as [[[]|ex'] d1] eqn:Hbody;
    apply loop_body_kept in Hbody as ((Htl & Hod & _) & Hf & Hc & Hl).
  - intros Hrest. apply IH in Hrest as (Hc' & Hl' & Htl' & Hod' & Hf').
    split_and!; [simpl; lia|simpl; lia|congruence|congruence|].
    intros p Hp. rewrite Hf', Hf; [done| |].
    + apply Hp. by left.
    + intros e' He'. rewrite Hod. apply Hp. by right.
  - intros [= <- <-]. split_and!; [simpl; lia|simpl; lia|done|done|].
    intros p Hp. apply Hf, Hp. by left.
Qed.

Lemma eval_tensors_ok ts (s : hstate) :
  (∀ p, writable s p = true) →
  Forall (λ t, t_name t = target_layer (cb_data s) →
               ∃ descr, ggml_type_to_numpy_descr (t_type t) = Ret descr) ts →
  ∃ s', eval_tensors (ggml_debug D) ts s = (Ret tt, s').
Proof.
  intros Hw Hts. revert s Hw Hts. induction ts as [|t ts IH]; intros s Hw Hts.
  { by eexists. }
  apply Forall_cons in Hts as [Ht Hts]. rewrite eval_tensors_cons.
  destruct (ggml_debug D t false s) as [[b|ex] s1] eqn:Hrun.
  - apply ggml_debug_frame in Hrun as [(_ & Htl & _ & Hw1 & _) _].
    apply IH; [by rewrite Hw1|by rewrite Htl].
  - exfalso.
    assert (t_name t = target_layer (cb_data s)) as Hname.
    { destruct (decide (t_name t = target_layer (cb_data s))); [done|].
      by rewrite ggml_debug_skip in Hrun. }
    destruct (Ht Hname) as [descr Hd].
    apply (ggml_debug_throw _ _ _ _ _ Hname) in Hrun as [(_ & Hty & _)|(_ & Hnw & _)].
    + congruence.
    + rewrite Hw in Hnw. done.
Qed.

(** X12: the loop runs to its end whenever captures cannot fail: if every
    path can be opened for writing and every tensor the engine evaluates under
    the target layer's name has an element type of the table, the loop
    returns normally for any list of records, whatever their tokenization and
    decode results. *)
Theorem main_loop_completes (entries : list json_entry) (d : dstate LC) :
  (∀ p, writable (hs d) p = true) →
  (∀ c tokens, Forall (λ t, t_name t = target_layer (cb_data (hs d)) →
                            ∃ descr, ggml_type_to_numpy_descr (t_type t) = Ret descr)
                 (plan c tokens).1.1) →
  ∃ d', main_loop D LC add_bos tok plan entries d = (Ret tt, d').
Proof.
  revert d. induction entries as [|e rest IH]; intros d Hw Hplan; [by eexists|].
  rewrite main_loop_cons.
  destruct (loop_body D LC add_bos tok plan e d) as [[[]|ex] d1] eqn:Hbody.
  - apply loop_body_kept in Hbody as ((Htl & _ & Hw1) & _).
    apply IH; [by rewrite Hw1|]. intros c tokens. rewrite Htl. apply Hplan.
  - exfalso. revert Hbody. rewrite loop_body_eq, run_one_eq. cbv zeta.
    case_decide; [done|]. unfold llama_decode.
    destruct (plan _ _) as [[ts status] ctx'] eqn:Hp.
    destruct (eval_tensors_ok ts
                (add_op (OpDecode (tok (ctx (set_uid LC (e_uid e) d).2)
                                     (e_question_text e)
                                     (add_bos (ctx (set_uid LC (e_uid e) d).2))))
                   (hs (set_uid LC (e_uid e) d).2))) as [s' ->].
    + exact Hw.
    + pose proof (Hplan (ctx (set_uid LC (e_uid e) d).2)
                    (tok (ctx (set_uid LC (e_uid e) d).2) (e_question_text e)
                       (add_bos (ctx (set_uid LC (e_uid e) d).2)))) as Hts.
      rewrite Hp in Hts. exact Hts.
    + by case_decide.
Qed.

(** X13: the log tells which records were skipped.  An iteration that
    returns leaves the log as it was exactly when the record had tokens and
    its decode call returned 0; otherwise it has appended the failure line of
    the record (after the line of [run_one] when the decode failed). *)
Theorem loop_body_log (e : json_entry) (d d' : dstate LC) :
  loop_body D LC add_bos tok plan e d = (Ret tt, d') →
  let tokens := tok (ctx d) (e_question_text e) (add_bos (ctx d)) in
  let failed := "Inference failed for uid " +:+ pretty (e_uid e) +:+ newline in
  (tokens ≠ [] ∧ (plan (ctx d) tokens).1.2 = 0%Z ∧ log d' = log d) ∨
  (tokens = [] ∧ log d' = log d ++ [failed]) ∨
  (tokens ≠ [] ∧ (plan (ctx d) tokens).1.2 ≠ 0%Z ∧
   log d' = log d ++ ["run_one : failed to eval" +:+ newline; failed]).
Proof.
  rewrite loop_body_eq, run_one_eq. cbv zeta.
  change (ctx (set_uid LC (e_uid e) d).2) with (ctx d).
  case_decide as Htok.
  { intros [= <-]. right. left. done. }
  unfold llama_decode. change (ctx (set_uid LC (e_uid e) d).2) with (ctx d).
  destruct (plan (ctx d) _) as [[ts status] ctx'].
  destruct (eval_tensors _ _ _) as [[?|ex] h']; [|done].
  case_decide as Hst; intros [= <-].
  - right. right. cbn. by rewrite <-app_assoc.
  - left. split_and!; [done| |done]. cbn. by destruct (decide (status = 0%Z)).
Qed.

End LoopRuns.

Lemma main_loop_throw_witness :
  let d0 := demo_dstate (λ p, bool_decide (p ≠ "/home/u/310-solution/npy_outputs//2.npy")) in
  ∃ e, e ∈ [demo_entry 1 "hello"; demo_entry 2 "world"] ∧
       capture_error (record_path "/home/u/310-solution/npy_outputs/" (e_uid e))
         (runtime_error "Cannot open file: /home/u/310-solution/npy_outputs//2.npy").
Proof.
  intros d0.
  apply (main_loop_throw 4 nat demo_add_bos demo_tokenize demo_plan
           [demo_entry 1 "hello"; demo_entry 2 "world"] d0
           (demo_main_loop [demo_entry 1 "hello"; demo_entry 2 "world"] d0).2).
  vm_compute. reflexivity.
Defined.

Lemma main_loop_footprint_witness :
  let d0 := demo_dstate (λ _, true) in
  let d' := (demo_main_loop [demo_entry 1 "hello"; demo_entry 2 "bad"] d0).2 in
  (count_decodes (ops (hs d')) ≤ 2)%nat ∧
  files (hs d') !! "/home/u/310-solution/npy_outputs//3.npy" = None.
Proof.
  intros d0 d'. subst d'. unfold demo_main_loop.
  set (run := main_loop 4 nat demo_add_bos demo_tokenize demo_plan
                [demo_entry 1 "hello"; demo_entry 2 "bad"] d0).
  destruct (main_loop_footprint 4 nat demo_add_bos demo_tokenize demo_plan
              [demo_entry 1 "hello"; demo_entry 2 "bad"] d0 run.2 run.1)
    as (Hc & _ & _ & _ & Hf).
  - apply surjective_pairing.
  - split; [exact Hc|]. rewrite Hf; [reflexivity|].
    intros e He. apply list_elem_of_In in He as [<-|[<-|[]]]; vm_compute; discriminate.
Defined.

Lemma main_loop_completes_witness :
  ∃ d', demo_main_loop [demo_entry 1 "hello"; demo_entry 2 "bad"] (demo_dstate (λ _, true))
          = (Ret tt, d').
Proof.
  apply (main_loop_completes 4 nat demo_add_bos demo_tokenize demo_plan).
  - reflexivity.
  - intros c tokens. unfold demo_plan. cbn [fst].
    repeat constructor; intros _; by exists "<f4".
Defined.

Lemma loop_body_log_witness :
  log (loop_body 4 nat demo_add_bos demo_tokenize demo_plan (demo_entry 1 "hello")
         (demo_dstate (λ _, true))).2 = [].
Proof.
  destruct (loop_body_log 4 nat demo_add_bos demo_tokenize demo_plan
              (demo_entry 1 "hello") (demo_dstate (λ _, true))
              (loop_body 4 nat demo_add_bos demo_tokenize demo_plan (demo_entry 1 "hello")
                 (demo_dstate (λ _, true))).2)
    as [(_ & _ & Hl)|[(Htok & _)|(_ & Hst & _)]].
  - vm_compute. reflexivity.
  - exact Hl.
  - vm_compute in Htok. discriminate Htok.
  - vm_compute in Hst. by destruct Hst.
Defined.


(** * Loading the records *)

Section LoadProps.

Context (json json_exception : Type)
        (json_parse : list byte → json_exception + json)
        (json_elements : json → list json)
        (json_at : json → string → json_exception + json)
        (get_uint32 : json → json_exception + N)
        (get_string : json → json_exception + string).

Local Abbreviation entry_of := (entry_of_json json json_exception json_at get_uint32 get_string).
Local Abbreviation load_from := (load_entries json json_exception json_at get_uint32 get_string).
Local Abbreviation load := (load_input_json json json_exception json_parse json_elements
                    json_at get_uint32 get_string).

Lemma load_entries_ok objs acc entries :
  load_from objs acc = inr entries ↔
  ∃ new, entries = acc ++ new ∧ Forall2 (λ obj e, entry_of obj = inr e) objs new.
Proof.
  revert acc. induction objs as [|obj rest IH]; intros acc; simpl.
  - split.
    + intros [= <-]. exists []. by rewrite app_nil_r.
    + intros (new & -> & ->%Forall2_nil_inv_l). by rewrite app_nil_r.
  - destruct (entry_of obj) as [x|e] eqn:He.
    + split; [done|]. intros (new & _ & Hall).
      apply Forall2_cons_inv_l in Hall as (e & ? & Hobj & _ & _). congruence.
    + rewrite IH. split.
      * intros (new & -> & Hall). exists (e :: new). rewrite <-app_assoc.
        split; [done|]. by constructor.
      * intros (new & -> & Hall).
        apply Forall2_cons_inv_l in Hall as (e' & new' & Hobj & Hall & ->).
        assert (e' = e) as -> by congruence.
        exists new'. by rewrite <-app_assoc.
Qed.

Lemma load_entries_fail objs acc x :
  load_from objs acc = inl x ↔
  ∃ pre obj post, objs = pre ++ obj :: post ∧
    Forall (λ o, ∃ e, entry_of o = inr e) pre ∧ entry_of obj = inl x.
Proof.
  revert acc. induction objs as [|obj rest IH]; intros acc; simpl.
  { split; [done|]. intros (pre & o & post & Heq & _). by destruct pre. }
  destruct (entry_of obj) as [y|e] eqn:He.
  - split.
    + intros [= ->]. exists [], obj, rest. by split_and!.
    + intros (pre & o' & post & Heq & Hpre & Hfail). destruct pre as [|o pre].
      * simplify_eq/=. congruence.
      * simplify_eq/=. apply Forall_cons in Hpre as [[e He'] _]. congruence.
  - rewrite IH. split.
    + intros (pre & o & post & -> & Hpre & Hfail).
      exists (obj :: pre), o, post. split_and!; [done| |done].
      constructor; eauto.
    + intros (pre & o' & post & Heq & Hpre & Hfail). destruct pre as [|o pre].
      * simplify_eq/=. congruence.
      * simplify_eq/=. apply Forall_cons in Hpre as [_ Hpre]. eauto 10.
Qed.

(** X14: the load returns a list exactly when the file exists, parses, and
    every element of the parsed value yields the five fields; the list then
    has one record per element, in the order of the elements, each built from
    the fields of its element. *)
Theorem load_input_json_ok (fs : gmap string (list byte)) (path : string)
    (entries : list json_entry) :
  load fs path = inr entries ↔
  ∃ content j,
    fs !! path = Some content ∧
    json_parse content = inr j ∧
    Forall2 (λ obj e, entry_of obj = inr e) (json_elements j) entries.
Proof.
  unfold load_input_json. split.
  - destruct (fs !! path) as [content|] eqn:Hfs; [|done].
    destruct (json_parse content) as [x|j] eqn:Hp; [done|].
    destruct (load_from (json_elements j) []) as [x|es] eqn:Hload; [done|].
    intros [= <-]. apply load_entries_ok in Hload as (new & -> & Hall).
    exists content, j. by split_and!.
  - intros (content & j & -> & -> & Hall).
    assert (load_from (json_elements j) [] = inr entries) as ->; [|done].
    apply load_entries_ok. by exists entries.
Qed.

(** X15: the load is all or nothing, and its failures are of three kinds:
    the file does not exist (the runtime error naming the path), the file
    does not parse, or some element lacks a field; then the exception is that
    of the first such element, from its first failing field, and no record
    is returned, however many elements before it were complete. *)
Theorem load_input_json_fails (fs : gmap string (list byte)) (path : string)
    (err : load_exn json_exception) :
  load fs path = inl err ↔
  (fs !! path = None ∧ err = LoadRuntimeError ("Cannot open INPUT_JSON: " +:+ path)) ∨
  (∃ content x, fs !! path = Some content ∧
     json_parse content = inl x ∧ err = LoadJsonException x) ∨
  (∃ content j pre obj post x,
     fs !! path = Some content ∧ json_parse content = inr j ∧
     json_elements j = pre ++ obj :: post ∧
     Forall (λ o, ∃ e, entry_of o = inr e) pre ∧
     entry_of obj = inl x ∧ err = LoadJsonException x).
Proof.
  unfold load_input_json. split.
  - destruct (fs !! path) as [content|] eqn:Hfs; [|intros [= <-]; by left].
    destruct (json_parse content) as [x|j] eqn:Hp.
    { intros [= <-]. right. left. by exists content, x. }
    destruct (load_from (json_elements j) []) as [x|es] eqn:Hload; [|done].
    intros [= <-]. apply load_entries_fail in Hload as (pre & obj & post & ? & ? & ?).
    right. right. exists content, j, pre, obj, post, x. by split_and!.
  - intros [[-> ->]|[(content & x & -> & -> & ->)|
                     (content & j & pre & obj & post & x & -> & -> & Hel & Hpre & Hobj & ->)]];
      [done..|].
    assert (load_from (json_elements j) [] = inl x) as ->; [|done].
    apply load_entries_fail. by exists pre, obj, post.
Qed.


End LoadProps.


(** * The program as a whole *)

Section MainProps.

Context (D : nat) (LC : Type) (add_bos : LC → bool)
        (tok : LC → string → bool → list Z)
        (plan : LC → list Z → list ggml_tensor * Z * LC)
        (json json_exception : Type)
        (json_parse : list byte → json_exception + json)
        (json_elements : json → list json)
        (json_at : json → string → json_exception + json)
        (get_uint32 : json → json_exception + N)
        (get_string : json → json_exception + string).

Local Abbreviation run_main :=
  (main D LC add_bos tok plan json json_exception json_parse json_elements
     json_at get_uint32 get_string).
Local Abbreviation load :=
  (load_input_json json json_exception json_parse json_elements
     json_at get_uint32 get_string).
Local Abbreviation loop := (main_loop D LC add_bos tok plan).

Lemma main_loop_kept (entries : list json_entry) (d d' : dstate LC) (r : outcome unit) :
  loop entries d = (r, d') →
  output_dir (cb_data (hs d')) = output_dir (cb_data (hs d)) ∧
  (∀ p, (∀ e, e ∈ entries → p ≠ record_path (output_dir (cb_data (hs d))) (e_uid e)) →
        files (hs d') !! p = files (hs d) !! p).
Proof.
  revert d. induction entries as [|e rest IH]; intros d.
  { by intros [= <- <-]. }
  rewrite main_loop_cons.
  destruct (loop_body D LC add_bos tok plan e d) as [[[]|ex'] d1] eqn:Hbody;
    apply loop_body_kept in Hbody as ((_ & Hod & _) & Hf & _).
  - intros Hrest. apply IH in Hrest as (Hod' & Hf').
    split; [congruence|].
    intros p Hp. rewrite Hf', Hf; [done| |].
    + apply Hp. by left.
    + intros e' He'. rewrite Hod. apply Hp. by right.
  - intros [= <- <-]. split; [done|]. intros p Hp. apply Hf, Hp. by left.
Qed.

Lemma main_loop_all_skipped (entries : list json_entry) (d : dstate LC) :
  Forall (λ e, tok (ctx d) (e_question_text e) (add_bos (ctx d)) = []) entries →
  ∃ d', loop entries d = (Ret tt, d') ∧
        ctx d' = ctx d ∧
        files (hs d') = files (hs d) ∧ ops (hs d') = ops (hs d) ∧
        log d' = log d ++ ((λ e, "Inference failed for uid " +:+ pretty (e_uid e) +:+ newline)
                             <$> entries).
Proof.
  intros Hall. revert d Hall. induction entries as [|e rest IH]; intros d Hall.
  { eexists. split; [done|]. by rewrite app_nil_r. }
  apply Forall_cons in Hall as [He Hrest].
  rewrite main_loop_cons, loop_body_eq, run_one_eq. cbv zeta.
  change (ctx (set_uid LC (e_uid e) d).2) with (ctx d). rewrite decide_True by done.
  edestruct IH as (d' & -> & Hc & Hf & Ho & Hl); [exact Hrest|].
  exists d'. split; [done|]. rewrite Hc, Hf, Ho, Hl.
  split_and!; [done..|]. cbn [log fmap list_fmap]. by rewrite <-app_assoc.
Qed.

(** X17: what an exit code of [main] means.  A returned code is 1 or 0: with
    1 the arguments did not parse or the engine did not initialise, and no
    file and no trace entry has changed; with 0 the input was loaded and the
    record loop ran to its end, however many records it skipped.  In both
    cases the output directory has been created first. *)
Theorem main_exit_code (home : string) (create_ok params_ok : bool)
    (init : option LC) (w : hstate) (code : Z) (st : main_state) :
  run_main home create_ok params_ok init w = (Exit code, st) →
  create_ok = true ∧
  created_dirs st = [OUTPUT_DIR home] ∧
  ((code = 1%Z ∧ (params_ok = false ∨ init = None) ∧
    files (main_world st) = files w ∧ ops (main_world st) = ops w)
   ∨
   (code = 0%Z ∧ params_ok = true ∧
    ∃ ctx0 entries d,
      init = Some ctx0 ∧
      load (files w) (INPUT_JSON home) = inr entries ∧
      loop entries (mk_dstate ctx0 [] (set_cb_data (initial_cb_data home) w)) = (Ret tt, d) ∧
      main_log st = log d ∧ main_world st = hs d)).
Proof.
  unfold main. destruct create_ok; [|done]. cbn [negb]. cbv zeta.
  destruct params_ok; cbn [negb].
  2:{ intros [= <- <-]. split_and!; [done..|]. left. split_and!; auto. }
  destruct init as [ctx0|].
  2:{ intros [= <- <-]. split_and!; [done..|]. left. split_and!; auto. }
  cbn [files set_cb_data].
  destruct (load (files w) (INPUT_JSON home)) as [e|entries] eqn:Hload; [done|].
  destruct (loop entries _) as [[[]|ex] d] eqn:Hloop; [|done].
  intros [= <- <-]. split_and!; [done..|]. right. split_and!; [done..|].
  exists ctx0, entries, d. by split_and!.
Qed.

(** X18: an exit code of 0 does not mean that anything was captured: when the
    input loads and no record's question has tokens, [main] returns 0 with
    one failure line per record in the log, no engine call and no file
    written. *)
Theorem main_all_skipped (home : string) (ctx0 : LC) (w : hstate)
    (entries : list json_entry) :
  load (files w) (INPUT_JSON home) = inr entries →
  Forall (λ e, tok ctx0 (e_question_text e) (add_bos ctx0) = []) entries →
  ∃ st, run_main home true true (Some ctx0) w = (Exit 0, st) ∧
        files (main_world st) = files w ∧
        ops (main_world st) = ops w ∧
        main_log st = (λ e, "Inference failed for uid " +:+ pretty (e_uid e) +:+ newline)
                        <$> entries.
Proof.
  intros Hload Hall. unfold main. cbn [negb]. cbv zeta. cbn [files set_cb_data].
  rewrite Hload.
  destruct (main_loop_all_skipped entries
              (mk_dstate ctx0 [] (set_cb_data (initial_cb_data home) w)) Hall)
    as (d' & -> & _ & Hf & Ho & Hl).
  eexists. split; [done|]. cbn [main_world main_log]. by rewrite Hf, Ho, Hl.
Qed.

(** X19: a malformed input stops the program before any inference.  When an
    element of the parsed input has no uid, while the elements before it are
    complete, [main] ends with the uncaught exception of that lookup: no
    decode call has been made, no file has changed and nothing is logged,
    whatever the later elements are. *)
Theorem main_missing_uid (home : string) (ctx0 : LC) (w : hstate)
    (content : list byte) (j : json) (pre post : list json) (obj : json)
    (x : json_exception) :
  files w !! INPUT_JSON home = Some content →
  json_parse content = inr j →
  json_elements j = pre ++ obj :: post →
  Forall (λ o, ∃ e, entry_of_json json json_exception json_at get_uint32 get_string o
                      = inr e) pre →
  json_at obj "uid" = inl x →
  ∃ st, run_main home true true (Some ctx0) w = (UncaughtLoad (LoadJsonException x), st) ∧
        files (main_world st) = files w ∧
        ops (main_world st) = ops w ∧
        main_log st = [].
Proof.
  intros Hfs Hparse Hel Hpre Huid.
  assert (load (files w) (INPUT_JSON home) = inl (LoadJsonException x)) as Hload.
  { unfold load_input_json. rewrite Hfs, Hparse.
    assert (load_entries json json_exception json_at get_uint32 get_string
              (json_elements j) [] = inl x) as ->; [|done].
    apply load_entries_fail. exists pre, obj, post. split_and!; [done..|].
    unfold entry_of_json, json_field. by rewrite Huid. }
  unfold main. cbn [negb]. cbv zeta. cbn [files set_cb_data]. rewrite Hload.
  by eexists.
Qed.

End MainProps.

(** ** The loading and the program at concrete inputs *)

Lemma load_input_json_ok_witness :
  demo_load {["in.json" := [x01]]} "in.json"
    = inr [mk_json_entry 1 "hello" "a" "m" "t"; mk_json_entry 2 EmptyString "a" "m" "t"].
Proof.
  apply (load_input_json_ok demo_json string demo_parse demo_elements demo_at
           demo_get_uint32 demo_get_string).
  exists [x01], (DArr [demo_record 1 "hello"; demo_record 2 EmptyString]).
  split; [reflexivity|]. split; [reflexivity|]. repeat constructor.
Defined.

Lemma load_input_json_fails_witness :
  demo_load {["in.json" := [x02]]} "in.json"
    = inl (LoadJsonException "key not found: uid").
Proof.
  apply (load_input_json_fails demo_json string demo_parse demo_elements demo_at
           demo_get_uint32 demo_get_string).
  right. right.
  exists [x02], (DArr [demo_record 1 "hello"; [("question_text", inr "q")];
                       demo_record 3 "later"]),
         [DObj (demo_record 1 "hello")], (DObj [("question_text", inr "q")]),
         [DObj (demo_record 3 "later")], "key not found: uid".
  split_and!; try reflexivity. repeat constructor. by eexists.
Defined.


Lemma main_exit_code_witness :
  created_dirs (demo_main [x01] false None).2 = ["/home/u/310-solution/npy_outputs/"].
Proof.
  destruct (main_exit_code 4 nat demo_add_bos demo_tokenize demo_plan demo_json string
              demo_parse demo_elements demo_at demo_get_uint32 demo_get_string
              "/home/u" true false None
              (demo_main_world [x01])
              1%Z (demo_main [x01] false None).2) as (_ & Hdirs & _).
  - reflexivity.
  - exact Hdirs.
Defined.

Lemma main_all_skipped_witness :
  ∃ st, main 4 nat demo_add_bos (λ _ _ _, []) demo_plan demo_json string demo_parse
          demo_elements demo_at demo_get_uint32 demo_get_string
          "/home/u" true true (Some 0)
          (demo_main_world [x01])
        = (Exit 0, st) ∧
        main_log st = ["Inference failed for uid 1" +:+ newline;
                       "Inference failed for uid 2" +:+ newline].
Proof.
  destruct (main_all_skipped 4 nat demo_add_bos (λ _ _ _, []) demo_plan demo_json string
              demo_parse demo_elements demo_at demo_get_uint32 demo_get_string
              "/home/u" 0
              (demo_main_world [x01])
              [mk_json_entry 1 "hello" "a" "m" "t";
               mk_json_entry 2 EmptyString "a" "m" "t"])
    as (st & Hrun & _ & _ & Hlog).
  - vm_compute. reflexivity.
  - by repeat constructor.
  - exists st. split; [exact Hrun|exact Hlog].
Defined.

Lemma main_missing_uid_witness :
  ∃ st, demo_main [x02] true (Some 0)
          = (UncaughtLoad (LoadJsonException "key not found: uid"), st) ∧
        ops (main_world st) = [].
Proof.
  destruct (main_missing_uid 4 nat demo_add_bos demo_tokenize demo_plan demo_json string
              demo_parse demo_elements demo_at demo_get_uint32 demo_get_string
              "/home/u" 0
              (demo_main_world [x02])
              [x02]
              (DArr [demo_record 1 "hello"; [("question_text", inr "q")];
                     demo_record 3 "later"])
              [DObj (demo_record 1 "hello")] [DObj (demo_record 3 "later")]
              (DObj [("question_text", inr "q")]) "key not found: uid")
    as (st & Hrun & _ & Hops & _).
  - vm_compute. reflexivity.
  - reflexivity.
  - reflexivity.
  - repeat constructor. by eexists.
  - reflexivity.
  - exists st. split; [exact Hrun|exact Hops].
Defined.



(** * The header determines descriptor and shape *)

Lemma pretty_N_char_num d : is_num_char (pretty_N_char d) = true.
Proof. unfold pretty_N_char. by repeat case_match. Qed.

Lemma pretty_N_go_chars x s :
  Forall (λ c, is_num_char c = true) (list_ascii_of_string s) →
  Forall (λ c, is_num_char c = true) (list_ascii_of_string (pretty_N_go x s)).
Proof.
  revert s. induction (N.lt_wf_0 x) as [x _ IH]; intros s Hs.
  destruct (decide (x = 0)%N) as [->|Hx]; [by rewrite pretty_N_go_0|].
  rewrite pretty_N_go_step by lia. apply IH; [apply N.div_lt; lia|].
  simpl. constructor; [apply pretty_N_char_num|done].
Qed.

Lemma pretty_Z_chars (z : Z) :
  ∃ c l, list_ascii_of_string (pretty z) = c :: l ∧
         Forall (λ c, is_num_char c = true) (c :: l).
Proof.
  assert (∀ n : N, ∃ c l, list_ascii_of_string (pretty n) = c :: l ∧
                          Forall (λ c, is_num_char c = true) (c :: l)) as HN.
  { intros n. unfold pretty, pretty_N. case_decide as Hn.
    - eexists _, _. split; [reflexivity|]. by repeat constructor.
    - pose proof (pretty_N_go_chars n EmptyString ltac:(constructor)) as Hall.
      destruct (list_ascii_of_string (pretty_N_go n EmptyString)) as [|c l] eqn:Hl;
        [|by eauto].
      exfalso. apply (f_equal string_of_list_ascii) in Hl.
      rewrite string_of_list_ascii_of_string in Hl. simpl in Hl.
      rewrite pretty_N_go_step in Hl by lia. rewrite pretty_N_go_app in Hl.
      apply (f_equal String.length) in Hl. rewrite str_length_app in Hl.
      simpl in Hl. lia. }
  destruct z as [|p|p]; unfold pretty, pretty_Z.
  - eexists _, _. split; [reflexivity|]. by repeat constructor.
  - apply HN.
  - destruct (HN (N.pos p)) as (c & l & Hl & Hall).
    exists "-"%char, (c :: l). split.
    + rewrite chars_app. unfold pretty at 1, pretty_positive. by rewrite Hl.
    + by constructor.
Qed.

Lemma token_split (a b : list ascii) c c' r r' :
  Forall (λ c, is_num_char c = true) a →
  Forall (λ c, is_num_char c = true) b →
  is_num_char c = false → is_num_char c' = false →
  a ++ c :: r = b ++ c' :: r' → a = b ∧ c :: r = c' :: r'.
Proof.
  intros Ha. revert b. induction Ha as [|x a Hx _ IH]; intros b Hb Hc Hc' Heq.
  - destruct Hb as [|y b Hy _]; [done|]. simplify_eq/=. congruence.
  - destruct Hb as [|y b Hy Hb]; simplify_eq/=; [congruence|].
    destruct (IH b Hb Hc Hc' H0) as [-> ?]. done.
Qed.

Lemma shape_rest_head l one :
  ∃ c r, list_ascii_of_string (shape_rest l one) = c :: r ∧ is_num_char c = false.
Proof.
  unfold shape_rest. destruct l as [|x l].
  - destruct one; eexists _, _; (split; [reflexivity|done]).
  - cbn [fmap list_fmap sep_tail]. rewrite !str_app_assoc.
    eexists _, _. split; [rewrite chars_app; reflexivity|done].
Qed.

Lemma pretty_split (x y : Z) (R1 R2 : string) c1 r1 c2 r2 :
  list_ascii_of_string R1 = c1 :: r1 → is_num_char c1 = false →
  list_ascii_of_string R2 = c2 :: r2 → is_num_char c2 = false →
  pretty x +:+ R1 = pretty y +:+ R2 → x = y ∧ R1 = R2.
Proof.
  intros H1 Hc1 H2 Hc2 Heq.
  apply (f_equal list_ascii_of_string) in Heq. rewrite !chars_app, H1, H2 in Heq.
  destruct (pretty_Z_chars x) as (a & la & Hx & Hax).
  destruct (pretty_Z_chars y) as (b & lb & Hy & Hby).
  rewrite Hx, Hy in Heq.
  apply token_split in Heq as [Hxy HR]; [|done..].
  split.
  - apply (inj pretty), chars_inj. by rewrite Hx, Hy.
  - apply chars_inj. by rewrite H1, H2.
Qed.

Lemma shape_rest_inj l1 l2 one1 one2 :
  shape_rest l1 one1 = shape_rest l2 one2 → l1 = l2 ∧ one1 = one2.
Proof.
  revert l2. induction l1 as [|x l1 IH]; intros [|y l2] Heq.
  - split; [done|]. by destruct one1, one2.
  - exfalso. unfold shape_rest in Heq. cbn [fmap list_fmap sep_tail] in Heq.
    rewrite !str_app_assoc in Heq.
    apply (f_equal list_ascii_of_string) in Heq. rewrite (chars_app ", ") in Heq.
    by destruct one1.
  - exfalso. unfold shape_rest in Heq. cbn [fmap list_fmap sep_tail] in Heq.
    rewrite !str_app_assoc in Heq.
    apply (f_equal list_ascii_of_string) in Heq. rewrite (chars_app ", ") in Heq.
    by destruct one2.
  - unfold shape_rest in Heq. cbn [fmap list_fmap sep_tail] in Heq.
    rewrite !str_app_assoc in Heq. apply String.app_inj in Heq.
    fold (shape_rest l1 one1) in Heq. fold (shape_rest l2 one2) in Heq.
    destruct (shape_rest_head l1 one1) as (c1 & r1 & H1 & Hc1).
    destruct (shape_rest_head l2 one2) as (c2 & r2 & H2 & Hc2).
    destruct (pretty_split _ _ _ _ _ _ _ _ H1 Hc1 H2 Hc2 Heq) as [-> HR].
    destruct (IH _ HR) as [-> ->]. done.
Qed.

Lemma header_text_parts descr shape :
  header_text descr shape = header_open +:+ descr +:+ header_mid +:+ shape_body shape.
Proof.
  rewrite header_text_eq.
  unfold header_dict, dict_text, shape_tuple, shape_body, header_open, header_mid.
  apply chars_inj. destruct shape as [|x [|y l]].
  - cbn [fmap list_fmap join sep_tail length fst snd].
    rewrite !chars_app, <-!app_assoc. reflexivity.
  - unfold shape_rest. cbn [fmap list_fmap join sep_tail length fst snd].
    rewrite decide_True by done. rewrite bool_decide_true by done.
    generalize (pretty x). intros px.
    rewrite !chars_app, <-!app_assoc. reflexivity.
  - unfold shape_rest. cbn [fmap list_fmap join sep_tail length fst snd].
    rewrite decide_False by done. rewrite bool_decide_false by done.
    generalize (pretty x) (pretty y) (sep_tail ", " (pretty <$> l)). intros px py tl.
    rewrite !chars_app, <-!app_assoc. reflexivity.
Qed.

Lemma chars_length s : length (list_ascii_of_string s) = String.length s.
Proof. induction s as [|c s IH]; [done|]. simpl. by rewrite IH. Qed.

Lemma shape_body_inj s1 s2 : shape_body s1 = shape_body s2 → s1 = s2.
Proof.
  destruct s1 as [|x l1], s2 as [|y l2]; cbn [shape_body]; intros Heq.
  - done.
  - exfalso. apply (f_equal list_ascii_of_string) in Heq. rewrite chars_app in Heq.
    destruct (pretty_Z_chars y) as (c & l & Hy & Hall). rewrite Hy in Heq.
    apply Forall_cons in Hall as [Hc _]. simplify_eq/=.
  - exfalso. apply (f_equal list_ascii_of_string) in Heq. rewrite chars_app in Heq.
    destruct (pretty_Z_chars x) as (c & l & Hx & Hall). rewrite Hx in Heq.
    apply Forall_cons in Hall as [Hc _]. simplify_eq/=.
  - destruct (shape_rest_head l1 (bool_decide (l1 = []))) as (c1 & r1 & H1 & Hc1).
    destruct (shape_rest_head l2 (bool_decide (l2 = []))) as (c2 & r2 & H2 & Hc2).
    destruct (pretty_split _ _ _ _ _ _ _ _ H1 Hc1 H2 Hc2 Heq) as [-> HR].
    by apply shape_rest_inj in HR as [-> _].
Qed.

(** X21: the header can be read back without ambiguity.  Two headers built
    from descriptors of equal length (all descriptors of the table have three
    characters) are equal only if the descriptors are equal and the shapes
    are the same list of integers: the commas, the trailing comma of a
    one-element shape and the minus signs never make two shapes collide. *)
Theorem header_text_inj (d1 d2 : string) (s1 s2 : list Z) :
  String.length d1 = String.length d2 →
  header_text d1 s1 = header_text d2 s2 →
  d1 = d2 ∧ s1 = s2.
Proof.
  intros Hlen Heq. rewrite !header_text_parts in Heq.
  apply String.app_inj in Heq.
  apply (f_equal list_ascii_of_string) in Heq. rewrite !(chars_app _ (header_mid +:+ _)) in Heq.
  apply app_inj_1 in Heq as [Hd Hrest].
  - apply chars_inj in Hd as ->. split; [done|].
    apply chars_inj, String.app_inj in Hrest. by apply shape_body_inj.
  - by rewrite !chars_length.
Qed.

Lemma header_text_inj_witness :
  build_shape 2 (demo_tensor true "l_out-15") = [2; 3]%Z.
Proof.
  by destruct (header_text_inj "<f4" "<f4" (build_shape 2 (demo_tensor true "l_out-15"))
                 [2; 3]%Z eq_refl eq_refl).
Defined.

(** * The paths the program opens *)

Section OpenedPaths.

Context (D : nat) (LC : Type) (add_bos : LC → bool)
        (tok : LC → string → bool → list Z)
        (plan : LC → list Z → list ggml_tensor * Z * LC)
        (json json_exception : Type)
        (json_parse : list byte → json_exception + json)
        (json_elements : json → list json)
        (json_at : json → string → json_exception + json)
        (get_uint32 : json → json_exception + N)
        (get_string : json → json_exception + string).

Lemma loop_body_opens e (d d' : dstate LC) r :
  loop_body D LC add_bos tok plan e d = (r, d') →
  output_dir (cb_data (hs d')) = output_dir (cb_data (hs d)) ∧
  ∃ new, ops (hs d') = ops (hs d) ++ new ∧
         ∀ p ok, OpOpen p ok ∈ new →
                 p = record_path (output_dir (cb_data (hs d))) (e_uid e).
Proof.
  intros Hrun. destruct (loop_body_frame _ _ _ _ _ _ _ _ _ Hrun) as [->|[tk Hfr]].
  { split; [done|]. exists []. split; [by rewrite app_nil_r|].
    by intros ?? ?%elem_of_nil. }
  destruct Hfr as (_ & _ & Hod & _ & (new & Hnew & Hall) & _).
  split; [done|]. exists (OpDecode tk :: new). split.
  { rewrite Hnew. cbn [add_op ops]. by rewrite <-app_assoc. }
  intros p ok [?|Hin]%elem_of_cons; [done|].
  rewrite Forall_forall in Hall. exact (Hall _ Hin).
Qed.

Lemma main_loop_opens (entries : list json_entry) (d d' : dstate LC) r :
  main_loop D LC add_bos tok plan entries d = (r, d') →
  ∃ new, ops (hs d') = ops (hs d) ++ new ∧
         ∀ p ok, OpOpen p ok ∈ new →
                 ∃ e, e ∈ entries ∧
                      p = record_path (output_dir (cb_data (hs d))) (e_uid e).
Proof.
  revert d. induction entries as [|e rest IH]; intros d.
  { intros [= <- <-]. exists []. split; [by rewrite app_nil_r|].
    by intros ?? ?%elem_of_nil. }
  rewrite main_loop_cons.
  destruct (loop_body D LC add_bos tok plan e d) as [[[]|ex] d1] eqn:Hbody;
    apply loop_body_opens in Hbody as (Hod & new1 & Hn1 & Hall1).
  - intros Hrest. apply IH in Hrest as (new2 & Hn2 & Hall2).
    exists (new1 ++ new2). split; [by rewrite Hn2, Hn1, <-app_assoc|].
    intros p ok [Hin|Hin]%elem_of_app.
    + exists e. split; [by left|eauto].
    + destruct (Hall2 _ _ Hin) as (e' & He' & ->). exists e'.
      split; [by right|by rewrite Hod].
  - intros [= <- <-]. exists new1. split; [done|].
    intros p ok Hin. exists e. split; [by left|eauto].
Qed.

(** X20: every path [main] opens for writing is spelled with a doubled
    slash.  The effects of a run extend the trace, and each attempt to open a
    file in them is made with the string
    HOME/310-solution/npy_outputs//<uid>.npy for the uid of a loaded record:
    the output directory already ends in a slash when the callback inserts
    another one between it and the file name. *)
Theorem main_opened_paths (home : string) (create_ok params_ok : bool)
    (init : option LC) (w : hstate) (r : main_end json_exception) (st : main_state) :
  main D LC add_bos tok plan json json_exception json_parse json_elements
    json_at get_uint32 get_string home create_ok params_ok init w = (r, st) →
  ∃ new, ops (main_world st) = ops w ++ new ∧
    ∀ p ok, OpOpen p ok ∈ new →
      ∃ entries e,
        load_input_json json json_exception json_parse json_elements
          json_at get_uint32 get_string (files w) (INPUT_JSON home) = inr entries ∧
        e ∈ entries ∧
        p = home +:+ "/310-solution/npy_outputs//" +:+ pretty (e_uid e) +:+ ".npy".
Proof.
  assert (∀ h : hstate, ∃ new, ops h = ops h ++ new ∧
            ∀ p ok, OpOpen p ok ∈ new →
              ∃ entries e,
                load_input_json json json_exception json_parse json_elements
                  json_at get_uint32 get_string (files w) (INPUT_JSON home)
                  = inr entries ∧
                e ∈ entries ∧
                p = home +:+ "/310-solution/npy_outputs//" +:+ pretty (e_uid e) +:+ ".npy")
    as Hnone.
  { intros h. exists []. split; [by rewrite app_nil_r|]. by intros ?? ?%elem_of_nil. }
  unfold main. destruct create_ok; cbn [negb]; [|intros [= <- <-]; apply Hnone].
  cbv zeta. destruct params_ok; cbn [negb]; [|intros [= <- <-]; apply (Hnone w)].
  destruct init as [ctx0|]; [|intros [= <- <-]; apply (Hnone w)].
  cbn [files set_cb_data].
  destruct (load_input_json _ _ _ _ _ _ _ (files w) (INPUT_JSON home))
    as [e|entries] eqn:Hload; [intros [= <- <-]; apply (Hnone w)|].
  destruct (main_loop _ _ _ _ _ entries _) as [ro d] eqn:Hloop.
  apply main_loop_opens in Hloop as (new & Hnew & Hall).
  cbn [hs ops cb_data set_cb_data output_dir initial_cb_data] in Hnew, Hall.
  intros Hr.
  assert (main_world st = hs d) as -> by (destruct ro; by injection Hr as <- <-).
  exists new. split; [done|].
  intros p ok Hin. destruct (Hall _ _ Hin) as (e & He & ->).
  exists entries, e. split_and!; [done..|].
  unfold record_path, OUTPUT_DIR. rewrite !str_app_assoc. reflexivity.
Qed.

End OpenedPaths.

Lemma main_opened_paths_witness :
  ∃ new, ops (main_world (demo_main [x01] true (Some 0)).2) = [] ++ new ∧
         OpOpen "/home/u/310-solution/npy_outputs//1.npy" true ∈ new ∧
         ∀ p ok, OpOpen p ok ∈ new →
           ∃ entries e,
             demo_load (files (demo_main_world [x01])) (INPUT_JSON "/home/u")
               = inr entries ∧
             e ∈ entries ∧
             p = "/home/u" +:+ "/310-solution/npy_outputs//" +:+ pretty (e_uid e)
                   +:+ ".npy".
Proof.
  destruct (main_opened_paths 4 nat demo_add_bos demo_tokenize demo_plan demo_json string
              demo_parse demo_elements demo_at demo_get_uint32 demo_get_string
              "/home/u" true true (Some 0) (demo_main_world [x01])
              (demo_main [x01] true (Some 0)).1 (demo_main [x01] true (Some 0)).2)
    as (new & Hnew & Hall).
  - apply surjective_pairing.
  - exists new. split; [exact Hnew|]. split; [|exact Hall].
    cbn [ops demo_main_world app] in Hnew. rewrite <-Hnew.
    vm_compute. apply list_elem_of_In. right. right. left. reflexivity.
Defined.
